(** * vLLM demo clients: a shallow embedding of [vllm_demo.py] and
    [vllm_web_demo.py]

    The two Python programs are thin clients of an HTTP inference service.
    Everything outside the two source files (the process environment, the
    [kubectl] subprocess, the [requests] HTTP layer, the Unicode database, the
    Flask session machinery) is collected in an environment record [Env] or
    modelled after its documented behaviour; the functions of the two files
    are translated statement by statement into a state-and-exception monad. *)

From Stdlib Require Import String Ascii ZArith NArith QArith List Bool Lia DecimalString.
From stdpp Require Import base option list.

Set Warnings "-register-all".
Local Open Scope Z_scope.

(** ** Python strings *)

(** A Python [str] is a sequence of Unicode code points. *)
Definition str := list N.

(** [py] turns an ASCII literal of the source into a [str]. *)
Definition py (s : string) : str :=
  List.map N_of_ascii (list_ascii_of_string s).

Definition str_eqb (a b : str) : bool := bool_decide (a = b).

(** [str.isspace] per code point: the characters removed by [str.strip()]. *)
Definition isspace (c : N) : bool :=
  (((9 <=? c) && (c <=? 13)) || ((28 <=? c) && (c <=? 32))
   || (c =? 133) || (c =? 160) || (c =? 5760)
   || ((8192 <=? c) && (c <=? 8202))
   || (c =? 8232) || (c =? 8233) || (c =? 8239) || (c =? 8287)
   || (c =? 12288))%N.

Fixpoint lstrip (s : str) : str :=
  match s with
  | c :: s' => if isspace c then lstrip s' else s
  | [] => []
  end.

Definition rstrip (s : str) : str := rev (lstrip (rev s)).

(** [s.strip()] *)
Definition strip (s : str) : str := rstrip (lstrip s).

Definition is_ascii (s : str) : bool := forallb (fun c => (c <? 128)%N) s.

Definition ascii_lower (c : N) : N :=
  if ((65 <=? c) && (c <=? 90))%N then (c + 32)%N else c.

(** [s.lower()]: on ASCII strings the letters A-Z are shifted; a string with
    a code point outside ASCII is lowered by the Unicode database, which is
    a parameter. *)
Definition lower (unicode_lower : str -> str) (s : str) : str :=
  if is_ascii s then List.map ascii_lower s else unicode_lower s.

(** [f"{n}"] for an integer. *)
Definition str_of_Z (z : Z) : str := py (NilZero.string_of_int (Z.to_int z)).

(** ** Python values (decoded JSON) *)

Inductive pyfloat :=
| Finite (q : Q)
| Infinity (negative : bool)
| NaN.

Inductive value :=
| VNone
| VBool (b : bool)
| VInt (z : Z)
| VFloat (f : pyfloat)
| VStr (s : str)
| VList (l : list value)
| VDict (d : list (str * value)).

(** Truth value of an object in a condition ([if response:]). *)
Definition truthy (v : value) : bool :=
  match v with
  | VNone => false
  | VBool b => b
  | VInt z => negb (z =? 0)
  | VFloat (Finite q) => negb (Qeq_bool q 0)
  | VFloat _ => true
  | VStr s => negb (bool_decide (s = []))
  | VList l => match l with [] => false | _ => true end
  | VDict d => match d with [] => false | _ => true end
  end.

(** A chat message [{"role": ..., "content": ...}]. *)
Record Message := { role : str; content : value }.

(** ** Exceptions *)

Inductive ExnClass :=
| KeyboardInterrupt
| SystemExit
| KeyError
| IndexError
| TypeError
| AttributeError
| ValueError
| EOFError
| OSError
| FileNotFoundError
| TimeoutExpired
| RequestException
| HTTPError
| ConnectionError
| Timeout
| InvalidURL
| MissingSchema
| RequestsJSONDecodeError.

Record exn := { cls : ExnClass; msg : str }.

(** [isinstance(e, requests.exceptions.RequestException)] *)
Definition is_RequestException (c : ExnClass) : bool :=
  match c with
  | RequestException | HTTPError | ConnectionError | Timeout
  | InvalidURL | MissingSchema | RequestsJSONDecodeError => true
  | _ => false
  end.

(** [isinstance(e, Exception)] *)
Definition is_Exception (c : ExnClass) : bool :=
  match c with
  | KeyboardInterrupt | SystemExit => false
  | _ => true
  end.

Definition is_KeyboardInterrupt (c : ExnClass) : bool :=
  match c with
  | KeyboardInterrupt => true
  | _ => false
  end.

(** A bare [except:] *)
Definition is_BaseException (c : ExnClass) : bool := true.

Inductive outcome (A : Type) :=
| Returns (a : A)
| Raises (e : exn).
Arguments Returns {A} a.
Arguments Raises {A} e.

(** ** Subscripts and methods on values *)

Fixpoint assoc (k : str) (d : list (str * value)) : option value :=
  match d with
  | [] => None
  | (k', v) :: d' => if str_eqb k k' then Some v else assoc k d'
  end.

Definition type_name (v : value) : str :=
  match v with
  | VNone => py "NoneType"
  | VBool _ => py "bool"
  | VInt _ => py "int"
  | VFloat _ => py "float"
  | VStr _ => py "str"
  | VList _ => py "list"
  | VDict _ => py "dict"
  end.

Definition not_subscriptable (v : value) : exn :=
  {| cls := TypeError;
     msg := py "'" ++ type_name v ++ py "' object is not subscriptable" |}.

(** [v[k]] for a string literal [k] *)
Definition getitem_key (v : value) (k : str) : outcome value :=
  match v with
  | VDict d =>
      match assoc k d with
      | Some x => Returns x
      | None => Raises {| cls := KeyError; msg := py "'" ++ k ++ py "'" |}
      end
  | VList _ =>
      Raises {| cls := TypeError;
                msg := py "list indices must be integers or slices, not str" |}
  | VStr _ =>
      Raises {| cls := TypeError;
                msg := py "string indices must be integers, not 'str'" |}
  | _ => Raises (not_subscriptable v)
  end.

(** [v[0]] *)
Definition getitem_0 (v : value) : outcome value :=
  match v with
  | VList (x :: _) => Returns x
  | VList [] =>
      Raises {| cls := IndexError; msg := py "list index out of range" |}
  | VStr (c :: _) => Returns (VStr [c])
  | VStr [] =>
      Raises {| cls := IndexError; msg := py "string index out of range" |}
  | VDict _ => Raises {| cls := KeyError; msg := py "0" |}
  | _ => Raises (not_subscriptable v)
  end.

Definition no_attribute (v : value) (name : str) : exn :=
  {| cls := AttributeError;
     msg := py "'" ++ type_name v ++ py "' object has no attribute '"
            ++ name ++ py "'" |}.

(** [v.get(k, default)] *)
Definition dict_get (v : value) (k : str) (dflt : value) : outcome value :=
  match v with
  | VDict d => Returns (default dflt (assoc k d))
  | _ => Raises (no_attribute v (py "get"))
  end.

(** ** The world outside the two source files *)

(** *** HTTP through [requests] *)

Inductive Method := GET | POST.

(** The [json=payload] argument of [requests.post]. *)
Inductive Payload :=
| ChatPayload (model : str) (messages : list Message) (max_tokens : Z)
    (temperature : pyfloat) (stream : bool)
| PromptPayload (model : str) (prompt : str) (max_tokens : Z)
    (temperature : pyfloat) (stream : bool).

Record HttpRequest := {
  method : Method;
  url : str;
  headers : list (str * str);
  payload : option Payload;
  timeout : Z                      (* seconds *)
}.

(** A [requests.Response]: [json] is what the method [.json()] does. *)
Record Response := {
  status_code : Z;
  reason : str;
  resp_url : str;
  json : outcome value
}.

(** [response.raise_for_status()] *)
Definition raise_for_status (r : Response) : outcome unit :=
  if (400 <=? status_code r) && (status_code r <? 500) then
    Raises {| cls := HTTPError;
              msg := str_of_Z (status_code r) ++ py " Client Error: "
                     ++ reason r ++ py " for url: " ++ resp_url r |}
  else if (500 <=? status_code r) && (status_code r <? 600) then
    Raises {| cls := HTTPError;
              msg := str_of_Z (status_code r) ++ py " Server Error: "
                     ++ reason r ++ py " for url: " ++ resp_url r |}
  else Returns tt.

(** *** Subprocesses *)

Record Command := { argv : list str; cmd_timeout : Z }.
Record CompletedProcess := { returncode : Z; stdout : str }.

(** *** The environment *)

Record Env := {
  (** [os.environ.get] *)
  environ : str -> option str;
  (** [subprocess.run(argv, capture_output=True, text=True, timeout=...)] *)
  subprocess_run : Command -> outcome CompletedProcess;
  (** The service behind [requests.get] and [requests.post]; the answer may
      depend on the requests received before. *)
  endpoint : list HttpRequest -> HttpRequest -> outcome Response;
  (** [str.lower] outside ASCII *)
  unicode_lower : str -> str;
  (** The n-th value of [str(uuid.uuid4())] *)
  uuid4 : nat -> str
}.

(** What a process prints. *)
Inductive Out :=
| OutLine (s : str)                (* print(s) *)
| OutText (s : str)                (* print(s, end="") and input prompts *)
| OutValue (v : value).            (* print(v) *)

Record World := {
  sent : list HttpRequest;         (* requests issued so far, oldest first *)
  spawned : list Command;          (* subprocesses run so far *)
  printed : list Out;              (* standard output *)
  uuids : nat                      (* uuid4 values drawn so far *)
}.

Definition initial_world : World :=
  {| sent := []; spawned := []; printed := []; uuids := 0%nat |}.

(** ** A state and exception monad *)

Definition M (S A : Type) : Type := S -> outcome A * S.

#[global] Instance M_ret {S} : MRet (M S) := fun A a s => (Returns a, s).

#[global] Instance M_bind {S} : MBind (M S) := fun A B f m s =>
  match m s with
  | (Returns a, s') => f a s'
  | (Raises e, s') => (Raises e, s')
  end.

Definition raise {S A} (e : exn) : M S A := fun s => (Raises e, s).

(** [lift_outcome] runs a pure operation that may raise. *)
Definition lift_outcome {S A} (o : outcome A) : M S A := fun s => (o, s).

(** [try: body  except C as e: handler e], where [catches] says whether the
    class of the exception is a subclass of [C]. The handler runs in the
    state the body reached when it raised. *)
Definition try_except {S A} (body : M S A) (catches : ExnClass -> bool)
    (handler : exn -> M S A) : M S A := fun s =>
  match body s with
  | (Raises e, s') => if catches (cls e) then handler e s' else (Raises e, s')
  | r => r
  end.

Definition get_state {S} : M S S := fun s => (Returns s, s).
Definition modify {S} (f : S -> S) : M S unit := fun s => (Returns tt, f s).

(** *** Primitive effects on the world *)

Definition log_request (w : World) (r : HttpRequest) : World :=
  {| sent := sent w ++ [r]; spawned := spawned w;
     printed := printed w; uuids := uuids w |}.

Definition log_command (w : World) (c : Command) : World :=
  {| sent := sent w; spawned := spawned w ++ [c];
     printed := printed w; uuids := uuids w |}.

Definition log_output (w : World) (o : Out) : World :=
  {| sent := sent w; spawned := spawned w;
     printed := printed w ++ [o]; uuids := uuids w |}.

Definition print (o : Out) : M World unit :=
  modify (fun w => log_output w o).

Definition requests_send (env : Env) (r : HttpRequest) : M World Response :=
  fun w => (endpoint env (sent w) r, log_request w r).

Definition run_subprocess (env : Env) (c : Command) : M World CompletedProcess :=
  fun w => (subprocess_run env c, log_command w c).

Definition draw_uuid4 (env : Env) : M World str :=
  fun w => (Returns (uuid4 env (uuids w)),
            {| sent := sent w; spawned := spawned w;
               printed := printed w; uuids := S (uuids w) |}).

(** [requests.get(url, timeout=t)] *)
Definition requests_get (env : Env) (u : str) (t : Z) : M World Response :=
  requests_send env
    {| method := GET; url := u; headers := []; payload := None; timeout := t |}.

(** [requests.post(url, headers=h, json=p, timeout=t)] *)
Definition requests_post (env : Env) (u : str) (h : list (str * str))
    (p : Payload) (t : Z) : M World Response :=
  requests_send env
    {| method := POST; url := u; headers := h; payload := Some p; timeout := t |}.

(** ** Both programs: the client object and endpoint discovery *)

Record Client := { base_url : str; model : str }.

Definition kubectl_query : Command :=
  {| argv := [py "kubectl"; py "get"; py "svc"; py "vllm-service"; py "-o";
              py "jsonpath={.status.loadBalancer.ingress[0].ip}"];
     cmd_timeout := 10 |}.

Definition localhost_url : str := py "http://localhost:8080".

Definition nonempty (s : str) : bool := negb (bool_decide (s = [])).

(** [f"http://{ip}:8080"] *)
Definition url_of_ip (ip : str) : str := py "http://" ++ ip ++ py ":8080".

Definition model_name : str := py "Qwen/Qwen2.5-1.5B-Instruct".

Definition json_headers : list (str * str) :=
  [(py "Content-Type", py "application/json")].

(** The default [temperature=0.7] of every completion method. *)
Definition default_temperature : pyfloat := Finite (7 # 10).

(** [if vllm_ip:] for the result of [os.environ.get]. *)
Definition env_truthy (o : option str) : bool :=
  match o with
  | Some s => nonempty s
  | None => false
  end.

(** ** [vllm_demo.py] *)

Module Cli.

(** [VLLMClient.__init__(self, base_url=None)] *)
Definition __init__ (env : Env) (override : option str) : M World Client :=
  base_url ←
    match override with
    | None =>
        let vllm_ip := environ env (py "VLLM_IP") in
        if env_truthy vllm_ip then mret (url_of_ip (default [] vllm_ip))
        else
          try_except
            (result ← run_subprocess env kubectl_query;
             if (returncode result =? 0) && nonempty (strip (stdout result))
             then mret (url_of_ip (strip (stdout result)))
             else mret localhost_url)
            is_BaseException
            (fun _ => mret localhost_url)
    | Some u => mret u
    end;
  print (OutLine (128279%N :: py " Using vLLM endpoint: " ++ base_url));;
  print (OutLine (128279%N :: py " Using vLLM endpoint: " ++ base_url));;
  mret {| base_url := base_url; model := model_name |}.

Definition health_timeout : Z := 10.
Definition models_timeout : Z := 10.
Definition completion_timeout : Z := 30.

(** [VLLMClient.health_check] *)
Definition health_check (env : Env) (self : Client) : M World bool :=
  try_except
    (response ← requests_get env (base_url self ++ py "/health") health_timeout;
     mret (status_code response =? 200))
    is_RequestException
    (fun _ => mret false).

(** [VLLMClient.get_models] *)
Definition get_models (env : Env) (self : Client) : M World value :=
  try_except
    (response ← requests_get env (base_url self ++ py "/v1/models") models_timeout;
     lift_outcome (raise_for_status response);;
     data ← lift_outcome (json response);
     lift_outcome (getitem_key data (py "data")))
    is_RequestException
    (fun e =>
       print (OutLine (py "Error getting models: " ++ msg e));;
       mret (VList [])).

(** [VLLMClient.chat_completion]; the result [None] is [VNone]. *)
Definition chat_completion (env : Env) (self : Client)
    (messages : list Message) (max_tokens : Z) (temperature : pyfloat)
    : M World value :=
  let payload := ChatPayload (model self) messages max_tokens temperature false in
  try_except
    (response ← requests_post env (base_url self ++ py "/v1/chat/completions")
                  json_headers payload completion_timeout;
     lift_outcome (raise_for_status response);;
     result ← lift_outcome (json response);
     choices ← lift_outcome (getitem_key result (py "choices"));
     choice ← lift_outcome (getitem_0 choices);
     message ← lift_outcome (getitem_key choice (py "message"));
     lift_outcome (getitem_key message (py "content")))
    is_RequestException
    (fun e =>
       print (OutLine (py "Error in chat completion: " ++ msg e));;
       mret VNone).

(** [VLLMClient.completion] *)
Definition completion (env : Env) (self : Client)
    (prompt : str) (max_tokens : Z) (temperature : pyfloat)
    : M World value :=
  let payload := PromptPayload (model self) prompt max_tokens temperature false in
  try_except
    (response ← requests_post env (base_url self ++ py "/v1/completions")
                  json_headers payload completion_timeout;
     lift_outcome (raise_for_status response);;
     result ← lift_outcome (json response);
     choices ← lift_outcome (getitem_key result (py "choices"));
     choice ← lift_outcome (getitem_0 choices);
     lift_outcome (getitem_key choice (py "text")))
    is_RequestException
    (fun e =>
       print (OutLine (py "Error in completion: " ++ msg e));;
       mret VNone).

(** *** [interactive_chat] *)

(** What [input("You: ")] delivers: a line, or Ctrl-C at the prompt. *)
Inductive Input :=
| Typed (line : str)
| Interrupt.

(** The loop's local variable [messages] next to the world. *)
Record Frame := { world : World; messages : list Message }.

Definition in_world {A} (m : M World A) : M Frame A := fun f =>
  let '(r, w) := m (world f) in (r, {| world := w; messages := messages f |}).

Definition set_messages (l : list Message) : M Frame unit :=
  modify (fun f => {| world := world f; messages := l |}).

(** [messages.append(m)] *)
Definition append_message (m : Message) : M Frame unit :=
  modify (fun f => {| world := world f; messages := messages f ++ [m] |}).

Definition get_messages : M Frame (list Message) :=
  fun f => (Returns (messages f), f).

(** [input("You: ")] *)
Definition input (i : Input) : M Frame str :=
  in_world (print (OutText (py "You: ")));;
  match i with
  | Typed line => mret line
  | Interrupt => raise {| cls := KeyboardInterrupt; msg := [] |}
  end.

Inductive Control := Break | Continue.

Definition goodbye : str := py "Goodbye! " ++ [128075%N].

(** One turn of [while True:], reading [i]. *)
Definition loop_body (env : Env) (client : Client) (i : Input) : M Frame Control :=
  try_except
    (try_except
       (line ← input i;
        let user_input := strip line in
        if existsb (str_eqb (lower (unicode_lower env) user_input))
             [py "quit"; py "exit"]
        then in_world (print (OutLine goodbye));; mret Break
        else if str_eqb (lower (unicode_lower env) user_input) (py "clear")
        then set_messages [];;
             in_world (print (OutLine (py "Conversation history cleared.")));;
             mret Continue
        else if negb (nonempty user_input) then mret Continue
        else
          append_message {| role := py "user"; content := VStr user_input |};;
          in_world (print (OutText (py "AI: ")));;
          messages ← get_messages;
          response ← in_world (chat_completion env client messages 200
                                 default_temperature);
          (if truthy response
           then in_world (print (OutValue response));;
                append_message {| role := py "assistant"; content := response |}
           else in_world (print (OutLine
                  (py "Sorry, I couldn't process your request."))));;
          in_world (print (OutLine []));;
          mret Continue)
       is_KeyboardInterrupt
       (fun _ => in_world (print (OutLine (10%N :: goodbye)));; mret Break))
    is_Exception
    (fun e => in_world (print (OutLine (py "Error: " ++ msg e)));; mret Continue).

(** How a run of the loop over a finite script of inputs ends. When the
    script is exhausted [input] raises [EOFError] on every turn, the last
    handler prints it and the loop goes on: it never leaves. *)
Inductive LoopEnd :=
| Left                           (* reached [break] *)
| SpinsOnEOF.

Fixpoint chat_loop (env : Env) (client : Client) (inputs : list Input)
    : M Frame LoopEnd :=
  match inputs with
  | [] => mret SpinsOnEOF
  | i :: rest =>
      c ← loop_body env client i;
      match c with
      | Break => mret Left
      | Continue => chat_loop env client rest
      end
  end.

Definition banner : M World unit :=
  print (OutLine (10%N :: 128172%N :: py " INTERACTIVE CHAT MODE"));;
  print (OutLine (repeat 45%N 30));;
  print (OutLine (py "Type 'quit' or 'exit' to end the chat"));;
  print (OutLine (py "Type 'clear' to clear conversation history"));;
  print (OutLine []).

(** [interactive_chat()], with the final local state kept for inspection. *)
Definition interactive_chat_frame (env : Env) (inputs : list Input)
    : World -> outcome LoopEnd * Frame := fun w =>
  match (banner;; __init__ env None) w with
  | (Returns client, w') =>
      chat_loop env client inputs {| world := w'; messages := [] |}
  | (Raises e, w') => (Raises e, {| world := w'; messages := [] |})
  end.

Definition interactive_chat (env : Env) (inputs : list Input) : M World LoopEnd :=
  fun w => let '(r, f) := interactive_chat_frame env inputs w in (r, world f).

End Cli.

(** ** [vllm_web_demo.py] *)

Module Web.

(** [get_vllm_base_url()] *)
Definition get_vllm_base_url (env : Env) : M World str :=
  let vllm_ip := environ env (py "VLLM_IP") in
  if env_truthy vllm_ip then
    print (OutLine (127760%N :: py " Using vLLM IP from environment variable: "
                      ++ default [] vllm_ip));;
    mret (url_of_ip (default [] vllm_ip))
  else
    try_except
      (result ← run_subprocess env kubectl_query;
       if (returncode result =? 0) && nonempty (strip (stdout result))
       then
         print (OutLine (127760%N :: py " Auto-detected vLLM IP: "
                           ++ strip (stdout result)));;
         mret (url_of_ip (strip (stdout result)))
       else
         print (OutLine ([9888%N; 65039%N]
                           ++ py "  Could not detect vLLM IP, using localhost:8080"));;
         mret localhost_url)
      is_Exception
      (fun e =>
         print (OutLine ([9888%N; 65039%N] ++ py "  Error detecting vLLM IP ("
                           ++ msg e ++ py "), using localhost:8080"));;
         mret localhost_url).

(** [VLLMWebClient.__init__(self, base_url=None)]:
    [self.base_url = base_url or VLLM_BASE_URL] *)
Definition __init__ (VLLM_BASE_URL : str) (override : option str) : Client :=
  {| base_url := if env_truthy override then default [] override
                 else VLLM_BASE_URL;
     model := model_name |}.

(** The module globals [VLLM_BASE_URL] and [vllm_client]. *)
Record App := { VLLM_BASE_URL : str; vllm_client : Client }.

(** Module initialisation, after the dependency check. *)
Definition load (env : Env) : M World App :=
  u ← get_vllm_base_url env;
  mret {| VLLM_BASE_URL := u; vllm_client := __init__ u None |}.

Definition health_timeout : Z := 5.
Definition models_timeout : Z := 10.
Definition completion_timeout : Z := 30.

(** [VLLMWebClient.health_check] *)
Definition health_check (env : Env) (self : Client) : M World bool :=
  try_except
    (response ← requests_get env (base_url self ++ py "/health") health_timeout;
     mret (status_code response =? 200))
    is_RequestException
    (fun _ => mret false).

(** [VLLMWebClient.get_models]; the error object is [{"error": str(e)}]. *)
Definition get_models (env : Env) (self : Client) : M World value :=
  try_except
    (response ← requests_get env (base_url self ++ py "/v1/models") models_timeout;
     lift_outcome (raise_for_status response);;
     data ← lift_outcome (json response);
     lift_outcome (getitem_key data (py "data")))
    is_RequestException
    (fun e => mret (VDict [(py "error", VStr (msg e))])).

(** The two dictionaries [chat_completion] builds:
    [{"success": True, "content": ..., "usage": ...}] and
    [{"success": False, "error": ...}]. *)
Inductive CompletionResult :=
| Success (content : value) (usage : value)
| Failure (error : str).

(** [VLLMWebClient.chat_completion] *)
Definition chat_completion (env : Env) (self : Client)
    (messages : list Message) (max_tokens : Z) (temperature : pyfloat)
    : M World CompletionResult :=
  let payload := ChatPayload (model self) messages max_tokens temperature false in
  try_except
    (response ← requests_post env (base_url self ++ py "/v1/chat/completions")
                  json_headers payload completion_timeout;
     lift_outcome (raise_for_status response);;
     result ← lift_outcome (json response);
     choices ← lift_outcome (getitem_key result (py "choices"));
     choice ← lift_outcome (getitem_0 choices);
     message ← lift_outcome (getitem_key choice (py "message"));
     content ← lift_outcome (getitem_key message (py "content"));
     usage ← lift_outcome (dict_get result (py "usage") (VDict []));
     mret (Success content usage))
    is_RequestException
    (fun e => mret (Failure (msg e))).

(** *** The Flask session

    The session is Flask's default signed-cookie session. At the start of a
    request the cookie is decoded into a dictionary; the lists in it are
    ordinary mutable objects. At the end of the request the dictionary is
    written back to the cookie only if an item was assigned ([modified]);
    changing a list in place does not set that flag. *)

(** What the cookie stores: the two keys the application assigns. *)
Record Cookie := {
  c_session_id : option str;
  c_chat_history : option (list Message)
}.

(** Addresses of list objects. *)
Definition loc := nat.

Record Session := {
  session_id : option str;
  chat_history : option loc;
  modified : bool
}.

(** The state of one request: the world, the list objects, the session. *)
Record Ctx := { world : World; heap : list (list Message); session : Session }.

Definition in_world {A} (m : M World A) : M Ctx A := fun c =>
  let '(r, w) := m (world c) in
  (r, {| world := w; heap := heap c; session := session c |}).

(** [[]]: a new list object *)
Definition new_list : M Ctx loc := fun c =>
  (Returns (length (heap c)),
   {| world := world c; heap := heap c ++ [[]]; session := session c |}).

(** [l.append(m)] on the object at [l] *)
Definition list_append (l : loc) (m : Message) : M Ctx unit :=
  modify (fun c => {| world := world c;
                      heap := alter (fun x => x ++ [m]) l (heap c);
                      session := session c |}).

(** The present contents of the object at [l]. *)
Definition list_read (l : loc) : M Ctx (list Message) := fun c =>
  (Returns (default [] (heap c !! l)), c).

Definition get_session : M Ctx Session := fun c => (Returns (session c), c).

(** [session['session_id'] = v] *)
Definition session_set_id (v : str) : M Ctx unit :=
  modify (fun c => {| world := world c; heap := heap c;
                      session := {| session_id := Some v;
                                    chat_history := chat_history (session c);
                                    modified := true |} |}).

(** [session['chat_history'] = l] *)
Definition session_set_history (l : loc) : M Ctx unit :=
  modify (fun c => {| world := world c; heap := heap c;
                      session := {| session_id := session_id (session c);
                                    chat_history := Some l;
                                    modified := true |} |}).

(** [open_session]: decode the cookie of the request. *)
Definition open_session (cookie : option Cookie) (w : World) : Ctx :=
  match cookie with
  | None =>
      {| world := w; heap := [];
         session := {| session_id := None; chat_history := None;
                       modified := false |} |}
  | Some c =>
      match c_chat_history c with
      | Some h =>
          {| world := w; heap := [h];
             session := {| session_id := c_session_id c;
                           chat_history := Some 0%nat; modified := false |} |}
      | None =>
          {| world := w; heap := [];
             session := {| session_id := c_session_id c;
                           chat_history := None; modified := false |} |}
      end
  end.

Definition session_empty (s : Session) : bool :=
  match session_id s, chat_history s with
  | None, None => true
  | _, _ => false
  end.

(** [save_session]: the cookie the browser holds after the response. *)
Definition save_session (c : Ctx) (cookie : option Cookie) : option Cookie :=
  if session_empty (session c) then
    if modified (session c) then None else cookie
  else if modified (session c) then
    Some {| c_session_id := session_id (session c);
            c_chat_history :=
              (fun l => default [] (heap c !! l)) <$> chat_history (session c) |}
  else cookie.

(** *** The routes *)

Inductive Reply :=
| Json (body : value) (status : Z)   (* jsonify(body), status *)
| Html (template : str).             (* render_template(template) *)

(** [index()] *)
Definition index (env : Env) : M Ctx Reply :=
  s ← get_session;
  (if negb (bool_decide (is_Some (session_id s))) then
     u ← in_world (draw_uuid4 env);
     session_set_id u;;
     l ← new_list;
     session_set_history l
   else mret tt);;
  mret (Html (py "index.html")).

(** [api_models()] *)
Definition api_models (env : Env) (app : App) : M Ctx Reply :=
  models ← in_world (get_models env (vllm_client app));
  mret (Json models 200).

(** [v.strip()] on an object *)
Definition value_strip (v : value) : outcome str :=
  match v with
  | VStr s => Returns (strip s)
  | _ => Raises (no_attribute v (py "strip"))
  end.

(** [api_chat()], where [data] is [request.get_json()]. *)
Definition api_chat (env : Env) (app : App) (data : value) : M Ctx Reply :=
  field ← lift_outcome (dict_get data (py "message") (VStr []));
  message ← lift_outcome (value_strip field);
  if negb (nonempty message) then
    mret (Json (VDict [(py "error", VStr (py "Message cannot be empty"))]) 400)
  else
    fresh ← new_list;
    s ← get_session;
    let chat_history := default fresh (chat_history s) in
    list_append chat_history {| role := py "user"; content := VStr message |};;
    transcript ← list_read chat_history;
    result ← in_world (chat_completion env (vllm_client app) transcript 200
                         default_temperature);
    match result with
    | Success content usage =>
        list_append chat_history {| role := py "assistant"; content := content |};;
        session_set_history chat_history;;
        mret (Json (VDict [(py "success", VBool true);
                           (py "response", content);
                           (py "usage", usage)]) 200)
    | Failure error =>
        mret (Json (VDict [(py "success", VBool false);
                           (py "error", VStr error)]) 500)
    end.

(** [api_clear()] *)
Definition api_clear : M Ctx Reply :=
  l ← new_list;
  session_set_history l;;
  mret (Json (VDict [(py "success", VBool true);
                     (py "message", VStr (py "Chat history cleared"))]) 200).

(** *** One request through the application *)

Inductive Route :=
| GetIndex
| GetModels
| PostChat (data : value)
| PostClear.

Definition view (env : Env) (app : App) (r : Route) : M Ctx Reply :=
  match r with
  | GetIndex => index env
  | GetModels => api_models env app
  | PostChat data => api_chat env app data
  | PostClear => api_clear
  end.

(** What the browser receives. A view that raises gives no reply of its
    own: the server answers with status 500 and sets no cookie. *)
Inductive Served :=
| Replied (r : Reply)
| ServerError (e : exn).

(** One request with the browser's cookie; the result is what the browser
    receives, the cookie it holds afterwards and the world afterwards. *)
Definition serve (env : Env) (app : App) (r : Route) (cookie : option Cookie)
    (w : World) : Served * option Cookie * World :=
  match view env app r (open_session cookie w) with
  | (Returns reply, c) => (Replied reply, save_session c cookie, world c)
  | (Raises e, c) => (ServerError e, cookie, world c)
  end.

(** The transcript a session holds. *)
Definition transcript_of (cookie : option Cookie) : list Message :=
  default [] (cookie ≫= c_chat_history).

End Web.

(** ** Vocabulary for the properties *)

Arguments py : simpl never.
Arguments str_of_Z : simpl never.

#[global] Instance outcome_ret : MRet outcome := @Returns.

#[global] Instance outcome_bind : MBind outcome := fun A B f o =>
  match o with
  | Returns a => f a
  | Raises e => Raises e
  end.

(** *** The requests the clients issue *)

Definition health_request (self : Client) (t : Z) : HttpRequest :=
  {| method := GET; url := base_url self ++ py "/health"; headers := [];
     payload := None; timeout := t |}.

Definition models_request (self : Client) (t : Z) : HttpRequest :=
  {| method := GET; url := base_url self ++ py "/v1/models"; headers := [];
     payload := None; timeout := t |}.

Definition chat_request (self : Client) (messages : list Message)
    (max_tokens : Z) (temperature : pyfloat) : HttpRequest :=
  {| method := POST; url := base_url self ++ py "/v1/chat/completions";
     headers := json_headers;
     payload := Some (ChatPayload (model self) messages max_tokens temperature false);
     timeout := 30 |}.

Definition prompt_request (self : Client) (prompt : str)
    (max_tokens : Z) (temperature : pyfloat) : HttpRequest :=
  {| method := POST; url := base_url self ++ py "/v1/completions";
     headers := json_headers;
     payload := Some (PromptPayload (model self) prompt max_tokens temperature false);
     timeout := 30 |}.

(** The requests a computation adds to the log of a world. *)
Definition issued {A} (m : M World A) (w : World) : list HttpRequest :=
  drop (length (sent w)) (sent (snd (m w))).

(** *** What the clients read off an answer *)

(** [response.raise_for_status(); response.json()] *)
Definition decoded (r : Response) : outcome value :=
  raise_for_status r;; json r.

(** [result["choices"][0]["message"]["content"]] *)
Definition chat_content (result : value) : outcome value :=
  choices ← getitem_key result (py "choices");
  choice ← getitem_0 choices;
  message ← getitem_key choice (py "message");
  getitem_key message (py "content").

(** [result["choices"][0]["text"]] *)
Definition text_content (result : value) : outcome value :=
  choices ← getitem_key result (py "choices");
  choice ← getitem_0 choices;
  getitem_key choice (py "text").

(** The success dictionary of the web client. *)
Definition web_chat_result (result : value) : outcome Web.CompletionResult :=
  content ← chat_content result;
  usage ← dict_get result (py "usage") (VDict []);
  mret (Web.Success content usage).

(** The effect of [try: ... except RequestException as e: ...] around a
    computation that has reached [o] in world [w]. *)
Definition guarded {A} (o : outcome A) (w : World)
    (failure : exn -> outcome A * World) : outcome A * World :=
  match o with
  | Returns a => (Returns a, w)
  | Raises e => if is_RequestException (cls e) then failure e else (Raises e, w)
  end.

(** *** Assumptions on the environment *)

(** [requests] reports transport failures as [RequestException]s. *)
Definition transport_raises_RequestException (env : Env) : Prop :=
  forall history r e,
    endpoint env history r = Raises e -> is_RequestException (cls e) = true.

(** A deterministic stub: the answer depends on the request alone. *)
Definition deterministic (env : Env) : Prop :=
  forall history history' r, endpoint env history r = endpoint env history' r.

(** No interrupt ([KeyboardInterrupt], [SystemExit]) arrives while a request
    is in flight or its body is decoded. *)
Definition no_interrupts (env : Env) : Prop :=
  forall history r,
    match endpoint env history r with
    | Raises e => is_Exception (cls e) = true
    | Returns resp =>
        match json resp with
        | Raises e => is_Exception (cls e) = true
        | Returns _ => True
        end
    end.

(** *** Endpoint resolution in the words of the specification *)

(** The first source that yields a result, in the order: caller override,
    environment variable, discovery query, fixed fallback. *)
Definition resolve_in_order (override env_ip discovered : option str) : str :=
  match override with
  | Some u => u
  | None =>
      match env_ip with
      | Some ip => url_of_ip ip
      | None =>
          match discovered with
          | Some ip => url_of_ip ip
          | None => localhost_url
          end
      end
  end.

(** The value of [VLLM_IP], if set and not empty. *)
Definition env_source (env : Env) : option str :=
  match environ env (py "VLLM_IP") with
  | Some ip => if nonempty ip then Some ip else None
  | None => None
  end.

(** The address [kubectl] reports, if it exits with 0 and prints one. *)
Definition discovery_source (env : Env) : option str :=
  match subprocess_run env kubectl_query with
  | Returns result =>
      if (returncode result =? 0) && nonempty (strip (stdout result))
      then Some (strip (stdout result)) else None
  | Raises _ => None
  end.

(** The discovery command fails: it raises an error, exits with another
    code than 0, or prints nothing but white space. *)
Definition discovery_fails (env : Env) : Prop :=
  match subprocess_run env kubectl_query with
  | Returns result => returncode result <> 0 \/ strip (stdout result) = []
  | Raises e => is_Exception (cls e) = true
  end.

(** *** Concrete environments *)

Definition plain_response (status : Z) (body : outcome value) : Response :=
  {| status_code := status; reason := py "stub"; resp_url := py "http://stub";
     json := body |}.

(** An environment without [VLLM_IP] and without [kubectl], whose service
    answers by [answer]. *)
Definition stub_env (answer : list HttpRequest -> HttpRequest -> outcome Response)
    : Env :=
  {| environ := fun _ => None;
     subprocess_run := fun _ =>
       Raises {| cls := FileNotFoundError; msg := py "kubectl" |};
     endpoint := answer;
     unicode_lower := fun s => s;
     uuid4 := fun _ => py "123e4567-e89b-42d3-a456-426614174000" |}.

Definition stub_client : Client :=
  {| base_url := py "http://stub:8080"; model := model_name |}.

Definition stub_app : Web.App :=
  {| Web.VLLM_BASE_URL := py "http://stub:8080"; Web.vllm_client := stub_client |}.

(** A well-formed chat completion body with the given reply. *)
Definition reply_body (text : str) : value :=
  VDict [(py "choices",
          VList [VDict [(py "message",
                         VDict [(py "role", VStr (py "assistant"));
                                (py "content", VStr text)])]]);
         (py "usage", VDict [(py "total_tokens", VInt 12)])].

Definition user (text : str) : Message :=
  {| role := py "user"; content := VStr text |}.

Definition assistant (reply : value) : Message :=
  {| role := py "assistant"; content := reply |}.

(** An unreachable service: every request ends in a connection error. *)
Definition unreachable : Env :=
  stub_env (fun _ _ => Raises {| cls := ConnectionError;
                                 msg := py "Connection refused" |}).

(** A service that answers every request with status 300 and an empty
    object. *)
Definition multiple_choices : Env :=
  stub_env (fun _ _ => Returns (plain_response 300 (Returns (VDict [])))).

(** A service that answers every request with status 200 and an empty
    object. *)
Definition empty_object : Env :=
  stub_env (fun _ _ => Returns (plain_response 200 (Returns (VDict [])))).

(** A service that answers every request with status 503. *)
Definition service_unavailable : Env :=
  stub_env (fun _ _ => Returns (plain_response 503 (Returns VNone))).

(** A service that answers every request with the reply "Hello!". *)
Definition greeter : Env :=
  stub_env (fun _ _ =>
    Returns (plain_response 200 (Returns (reply_body (py "Hello!"))))).

(** A service whose reply tells how many requests it received before. *)
Definition counting_service : Env :=
  stub_env (fun history _ =>
    Returns (plain_response 200
               (Returns (reply_body (str_of_Z (Z.of_nat (length history))))))).

(** An environment with [VLLM_IP=10.0.0.5] whose [kubectl] query would time
    out. *)
Definition configured : Env :=
  {| environ := fun k =>
       if str_eqb k (py "VLLM_IP") then Some (py "10.0.0.5") else None;
     subprocess_run := fun _ =>
       Raises {| cls := TimeoutExpired;
                 msg := py "Command timed out after 10 seconds" |};
     endpoint := fun _ _ =>
       Returns (plain_response 200 (Returns (reply_body (py "Hello!"))));
     unicode_lower := fun s => s;
     uuid4 := fun _ => py "123e4567-e89b-42d3-a456-426614174000" |}.

(** ** Further parts of [vllm_web_demo.py] *)

(** One request through an arbitrary view function: what [Web.serve] does
    with the view of a route. *)
Definition serve_view (v : M Web.Ctx Web.Reply) (cookie : option Web.Cookie)
    (w : World) : Web.Served * option Web.Cookie * World :=
  match v (Web.open_session cookie w) with
  | (Returns reply, c) => (Web.Replied reply, Web.save_session c cookie, Web.world c)
  | (Raises e, c) => (Web.ServerError e, cookie, Web.world c)
  end.

(** [api_health()]; [timestamp] is the value of
    [datetime.now().isoformat()] when the request is served. *)
Definition api_health (env : Env) (app : Web.App) (timestamp : str)
    : M Web.Ctx Web.Reply :=
  is_healthy ← Web.in_world (Web.health_check env (Web.vllm_client app));
  mret (Web.Json (VDict [(py "healthy", VBool is_healthy);
                         (py "timestamp", VStr timestamp)]) 200).

(** A transcript made of whole turns: a user message followed by the
    assistant's reply, any number of times. *)
Fixpoint whole_turns (l : list Message) : bool :=
  match l with
  | [] => true
  | u :: rest =>
      match rest with
      | a :: rest' =>
          str_eqb (role u) (py "user") && str_eqb (role a) (py "assistant")
          && whole_turns rest'
      | [] => false
      end
  end.

(** A service that answers with status 201 and a body without ["usage"]. *)
Definition without_usage : Env :=
  stub_env (fun _ _ =>
    Returns (plain_response 201
      (Returns (VDict [(py "choices",
                        VList [VDict [(py "message",
                                       VDict [(py "content",
                                               VStr (py "Hello!"))])]])])))).

(** ** Vocabulary for the interactive loop *)

(** The line is sent as a message: it is neither [quit], [exit] nor [clear]
    once stripped and lowered, and it is not blank. *)
Definition is_message (env : Env) (line : str) : bool :=
  negb (existsb (str_eqb (lower (unicode_lower env) (strip line)))
          [py "quit"; py "exit"])
  && negb (str_eqb (lower (unicode_lower env) (strip line)) (py "clear"))
  && nonempty (strip line).

Definition message_input (env : Env) (i : Cli.Input) : bool :=
  match i with
  | Cli.Typed line => is_message env line
  | Cli.Interrupt => false
  end.

(** A message as the loop writes them: a user message with a non-empty
    string, or an assistant message with a content that counts as true. *)
Definition well_formed (m : Message) : bool :=
  (str_eqb (role m) (py "user")
   && match content m with VStr s => nonempty s | _ => false end)
  || (str_eqb (role m) (py "assistant") && truthy (content m)).

(** ** [demo_basic_usage] of [vllm_demo.py] *)

(** [for x in v]: the elements an object yields when iterated; an object
    that cannot be iterated raises [TypeError]. *)
Definition iterate (v : value) : outcome (list value) :=
  match v with
  | VList l => Returns l
  | VDict d => Returns (List.map (fun kv => VStr (fst kv)) d)
  | VStr s => Returns (List.map (fun c => VStr [c]) s)
  | _ =>
      Raises {| cls := TypeError;
                msg := py "'" ++ type_name v ++ py "' object is not iterable" |}
  end.

Section Demo.

(** The text an f-string puts for an object ([str(v)]). *)
Variable format_value : value -> str.

(** The body of [for model in models:] over the elements of [models]. *)
Fixpoint show_models (models : list value) : M World unit :=
  match models with
  | [] => mret tt
  | model :: rest =>
      id ← lift_outcome (getitem_key model (py "id"));
      print (OutLine (py "   " ++ [128230%N] ++ py " " ++ format_value id));;
      len ← lift_outcome (dict_get model (py "max_model_len") (VStr (py "N/A")));
      print (OutLine (py "      Max Length: " ++ format_value len));;
      show_models rest
  end.

(** [if response: print(f"   Response: {response}") else: print(...)] *)
Definition show_response (response : value) : M World unit :=
  if truthy response
  then print (OutLine (py "   Response: " ++ format_value response))
  else print (OutLine (py "   " ++ [10060%N] ++ py " Failed to get response")).

Definition joke : str := py "Hello! Can you tell me a short joke?".
Definition future : str := py "The future of AI is".

(** [demo_basic_usage()] *)
Definition demo_basic_usage (env : Env) : M World unit :=
  print (OutLine (10%N :: 128203%N :: py " BASIC API USAGE DEMO"));;
  print (OutLine (repeat 45%N 30));;
  client ← Cli.__init__ env None;
  print (OutLine (py "1. Health Check:"));;
  healthy ← Cli.health_check env client;
  if (healthy : bool) then
    print (OutLine (py "   " ++ [9989%N] ++ py " vLLM service is healthy"));;
    print (OutLine (10%N :: py "2. Available Models:"));;
    models ← Cli.get_models env client;
    elements ← lift_outcome (iterate models);
    show_models elements;;
    print (OutLine (10%N :: py "3. Chat Completion:"));;
    print (OutLine (py "   Sending: " ++ joke));;
    response ← Cli.chat_completion env client
                 [{| role := py "user"; content := VStr joke |}] 100
                 default_temperature;
    show_response response;;
    print (OutLine (10%N :: py "4. Completion (Legacy Format):"));;
    print (OutLine (py "   Prompt: " ++ future));;
    response ← Cli.completion env client future 50 default_temperature;
    show_response response
  else
    print (OutLine (py "   " ++ [10060%N] ++ py " vLLM service is not responding")).

End Demo.

(** The four requests of the demonstration, in the order of the source. *)
Definition demo_requests (client : Client) : list HttpRequest :=
  [health_request client 10;
   models_request client 10;
   chat_request client [user joke] 100 default_temperature;
   prompt_request client future 50 default_temperature].


(** A service with one model, answering every request alike. *)
Definition one_model : Env :=
  stub_env (fun _ _ =>
    Returns (plain_response 200
      (Returns (VDict [(py "data",
                        VList [VDict [(py "id", VStr model_name)]]);
                       (py "choices",
                        VList [VDict [(py "message",
                                       VDict [(py "content",
                                               VStr (py "Hello!"))]);
                                      (py "text", VStr (py " bright"))]])])))).

(** The input makes the loop leave: Ctrl-C at the prompt, or a line that
    reads [quit] or [exit] once stripped and lowered. *)
Definition leaving (env : Env) (i : Cli.Input) : bool :=
  match i with
  | Cli.Typed line =>
      existsb (str_eqb (lower (unicode_lower env) (strip line)))
        [py "quit"; py "exit"]
  | Cli.Interrupt => true
  end.

(** A base URL that [requests] passes on unparsed, and a service call that
    then fails outside [requests]' own exceptions: urllib3's
    [LocationParseError], a [ValueError]. *)
Definition unparsable_client : Client :=
  {| base_url := py "http://a..b:8080"; model := model_name |}.

Definition unparsable : Env :=
  stub_env (fun _ _ =>
    Raises {| cls := ValueError;
              msg := py "Failed to parse: 'a..b', label empty or too long" |}).

(** The input empties the transcript: a line that reads [clear] once
    stripped and lowered. *)
Definition clears (env : Env) (i : Cli.Input) : bool :=
  match i with
  | Cli.Typed line =>
      str_eqb (lower (unicode_lower env) (strip line)) (py "clear")
  | Cli.Interrupt => false
  end.

(** * Properties *)

(** ** How the client methods run *)

Ltac unfold_monad :=
  unfold try_except, requests_post, requests_get, requests_send, run_subprocess,
    lift_outcome, print, modify, raise, get_state,
    mbind, M_bind, outcome_bind, mret, M_ret, outcome_ret in *.

(** Case analysis on the first outcome the goal inspects. *)
Ltac case_outcome :=
  match goal with
  | |- context [match ?o with Returns _ => _ | Raises _ => _ end] =>
      destruct o eqn:?; cbn
  end.

Lemma raise_for_status_HTTPError r e :
  raise_for_status r = Raises e -> cls e = HTTPError.
Proof.
  unfold raise_for_status.
  repeat case_match; intros Hr; inversion Hr; reflexivity.
Qed.

Lemma raise_for_status_error r :
  400 <= status_code r < 600 ->
  exists e, raise_for_status r = Raises e /\ cls e = HTTPError.
Proof.
  intros Hs. unfold raise_for_status.
  destruct (status_code r <? 500) eqn:Hlt.
  - replace (400 <=? status_code r) with true by (symmetry; apply Z.leb_le; lia).
    cbn. eauto.
  - replace (400 <=? status_code r) with true by (symmetry; apply Z.leb_le; lia).
    replace (500 <=? status_code r) with true
      by (symmetry; apply Z.leb_le; apply Z.ltb_ge in Hlt; lia).
    replace (status_code r <? 600) with true by (symmetry; apply Z.ltb_lt; lia).
    cbn. eauto.
Qed.

Lemma raise_for_status_pass r :
  ~ 400 <= status_code r < 600 -> raise_for_status r = Returns tt.
Proof.
  intros Hs. unfold raise_for_status.
  destruct (400 <=? status_code r) eqn:H4, (status_code r <? 500) eqn:H5,
    (500 <=? status_code r) eqn:H6, (status_code r <? 600) eqn:H7; cbn;
    try reflexivity; exfalso; apply Hs;
    rewrite ?Z.leb_le, ?Z.ltb_lt, ?Z.leb_gt, ?Z.ltb_ge in *; lia.
Qed.

Lemma cli_health_check_run env self w :
  Cli.health_check env self w =
  let req := health_request self 10 in
  guarded (r ← endpoint env (sent w) req; mret (status_code r =? 200))
    (log_request w req) (fun _ => (Returns false, log_request w req)).
Proof.
  unfold Cli.health_check, guarded, health_request, Cli.health_timeout.
  unfold_monad. cbn. repeat case_outcome; reflexivity.
Qed.

Lemma web_health_check_run env self w :
  Web.health_check env self w =
  let req := health_request self 5 in
  guarded (r ← endpoint env (sent w) req; mret (status_code r =? 200))
    (log_request w req) (fun _ => (Returns false, log_request w req)).
Proof.
  unfold Web.health_check, guarded, health_request, Web.health_timeout.
  unfold_monad. cbn. repeat case_outcome; reflexivity.
Qed.

Lemma cli_get_models_run env self w :
  Cli.get_models env self w =
  let req := models_request self 10 in
  guarded (r ← endpoint env (sent w) req; data ← decoded r;
           getitem_key data (py "data"))
    (log_request w req)
    (fun e => (Returns (VList []),
               log_output (log_request w req)
                 (OutLine (py "Error getting models: " ++ msg e)))).
Proof.
  unfold Cli.get_models, guarded, decoded, models_request, Cli.models_timeout.
  unfold_monad. cbn. repeat case_outcome; reflexivity.
Qed.

Lemma web_get_models_run env self w :
  Web.get_models env self w =
  let req := models_request self 10 in
  guarded (r ← endpoint env (sent w) req; data ← decoded r;
           getitem_key data (py "data"))
    (log_request w req)
    (fun e => (Returns (VDict [(py "error", VStr (msg e))]), log_request w req)).
Proof.
  unfold Web.get_models, guarded, decoded, models_request, Web.models_timeout.
  unfold_monad. cbn. repeat case_outcome; reflexivity.
Qed.

Lemma cli_chat_completion_run env self messages mt temp w :
  Cli.chat_completion env self messages mt temp w =
  let req := chat_request self messages mt temp in
  guarded (r ← endpoint env (sent w) req; result ← decoded r; chat_content result)
    (log_request w req)
    (fun e => (Returns VNone,
               log_output (log_request w req)
                 (OutLine (py "Error in chat completion: " ++ msg e)))).
Proof.
  unfold Cli.chat_completion, guarded, decoded, chat_content, chat_request,
    Cli.completion_timeout.
  unfold_monad. cbn. repeat case_outcome; reflexivity.
Qed.

Lemma cli_completion_run env self prompt mt temp w :
  Cli.completion env self prompt mt temp w =
  let req := prompt_request self prompt mt temp in
  guarded (r ← endpoint env (sent w) req; result ← decoded r; text_content result)
    (log_request w req)
    (fun e => (Returns VNone,
               log_output (log_request w req)
                 (OutLine (py "Error in completion: " ++ msg e)))).
Proof.
  unfold Cli.completion, guarded, decoded, text_content, prompt_request,
    Cli.completion_timeout.
  unfold_monad. cbn. repeat case_outcome; reflexivity.
Qed.

Lemma web_chat_completion_run env self messages mt temp w :
  Web.chat_completion env self messages mt temp w =
  let req := chat_request self messages mt temp in
  guarded (r ← endpoint env (sent w) req; result ← decoded r; web_chat_result result)
    (log_request w req)
    (fun e => (Returns (Web.Failure (msg e)), log_request w req)).
Proof.
  unfold Web.chat_completion, guarded, decoded, web_chat_result, chat_content,
    chat_request, Web.completion_timeout.
  unfold_monad. cbn. repeat case_outcome; reflexivity.
Qed.

Lemma getitem_key_raises v k e :
  getitem_key v k = Raises e -> cls e = KeyError \/ cls e = TypeError.
Proof.
  destruct v; cbn; try (intros [= <-]; cbn; auto).
  destruct (assoc k d); intros [= <-]; cbn; auto.
Qed.

Lemma getitem_0_raises v e :
  getitem_0 v = Raises e ->
  cls e = KeyError \/ cls e = IndexError \/ cls e = TypeError.
Proof.
  destruct v as [| | | |[|]|[|]|]; cbn; intros [= <-]; cbn; auto.
Qed.

(** The lookups into a decoded body raise nothing but [KeyError],
    [IndexError] and [TypeError]: none of them a [RequestException]. *)
Lemma chat_content_raises result e :
  chat_content result = Raises e ->
  cls e = KeyError \/ cls e = IndexError \/ cls e = TypeError.
Proof.
  unfold chat_content. unfold_monad.
  destruct (getitem_key result _) as [c|] eqn:H1;
    [|intros [= <-]; apply getitem_key_raises in H1; tauto].
  destruct (getitem_0 c) as [c0|] eqn:H2;
    [|intros [= <-]; apply getitem_0_raises in H2; tauto].
  destruct (getitem_key c0 _) as [m|] eqn:H3;
    [|intros [= <-]; apply getitem_key_raises in H3; tauto].
  intros H4. apply getitem_key_raises in H4; tauto.
Qed.

Lemma text_content_raises result e :
  text_content result = Raises e ->
  cls e = KeyError \/ cls e = IndexError \/ cls e = TypeError.
Proof.
  unfold text_content. unfold_monad.
  destruct (getitem_key result _) as [c|] eqn:H1;
    [|intros [= <-]; apply getitem_key_raises in H1; tauto].
  destruct (getitem_0 c) as [c0|] eqn:H2;
    [|intros [= <-]; apply getitem_0_raises in H2; tauto].
  intros H4. apply getitem_key_raises in H4; tauto.
Qed.

Lemma web_chat_result_raises result e :
  web_chat_result result = Raises e ->
  cls e = KeyError \/ cls e = IndexError \/ cls e = TypeError.
Proof.
  unfold web_chat_result. unfold_monad.
  destruct (chat_content result) as [c|] eqn:H1;
    [|intros [= <-]; eauto using chat_content_raises].
  destruct result; cbn; try discriminate.
  all: unfold chat_content in H1; cbn in H1; discriminate.
Qed.

Lemma lookup_not_RequestException c :
  c = KeyError \/ c = IndexError \/ c = TypeError -> is_RequestException c = false.
Proof. intros [-> | [-> | ->]]; reflexivity. Qed.

(** ** C5: the health check *)

(** C5, as amended. For every endpoint, the health check of either client
    returns a boolean and does not raise whenever the liveness request is
    answered or fails with a [RequestException] (timeout, connection
    refused, DNS failure, a URL that [requests] itself rejects): the
    boolean is true exactly when the answer has status 200, and every such
    failure gives false. An exception of another class that leaves the HTTP
    layer (a malformed URL that only urllib3 rejects) is not caught and
    reaches the caller. *)
Theorem C5_health_check_cases env self w :
  (forall r, endpoint env (sent w) (health_request self 10) = Returns r ->
     fst (Cli.health_check env self w) = Returns (status_code r =? 200)) /\
  (forall e, endpoint env (sent w) (health_request self 10) = Raises e ->
     fst (Cli.health_check env self w) =
     if is_RequestException (cls e) then Returns false else Raises e) /\
  (forall r, endpoint env (sent w) (health_request self 5) = Returns r ->
     fst (Web.health_check env self w) = Returns (status_code r =? 200)) /\
  (forall e, endpoint env (sent w) (health_request self 5) = Raises e ->
     fst (Web.health_check env self w) =
     if is_RequestException (cls e) then Returns false else Raises e).
Proof.
  rewrite cli_health_check_run, web_health_check_run. cbn zeta.
  repeat split.
  - intros r ->. reflexivity.
  - intros e ->. cbn. now destruct (is_RequestException (cls e)).
  - intros r ->. reflexivity.
  - intros e ->. cbn. now destruct (is_RequestException (cls e)).
Qed.

Lemma C5_witness :
  fst (Cli.health_check unreachable stub_client initial_world) = Returns false /\
  fst (Web.health_check unreachable stub_client initial_world) = Returns false.
Proof.
  destruct (C5_health_check_cases unreachable stub_client initial_world)
    as (_ & Hcli & _ & Hweb).
  split.
  - exact (Hcli {| cls := ConnectionError; msg := py "Connection refused" |}
             eq_refl).
  - exact (Hweb {| cls := ConnectionError; msg := py "Connection refused" |}
             eq_refl).
Defined.

(** C5, as stated, fails: for the malformed endpoint http://a..b:8080 the
    HTTP layer raises a [ValueError] that is no [RequestException], and both
    health checks raise it instead of returning false. *)
Lemma C5_counterexample :
  fst (Cli.health_check unparsable unparsable_client initial_world) =
    Raises {| cls := ValueError;
              msg := py "Failed to parse: 'a..b', label empty or too long" |} /\
  fst (Web.health_check unparsable unparsable_client initial_world) =
    Raises {| cls := ValueError;
              msg := py "Failed to parse: 'a..b', label empty or too long" |}.
Proof. split; reflexivity. Qed.

(** The status that counts as healthy is 200 itself: another 2xx status
    gives false. *)
Example health_check_status_204 :
  fst (Cli.health_check
         (stub_env (fun _ _ => Returns (plain_response 204 (Returns VNone))))
         stub_client initial_world) = Returns false.
Proof. reflexivity. Qed.

(** ** C6: listing the models *)

(** C6, as amended. When the request for the model list fails with a
    [RequestException] of the transport, or is answered with an error status
    (400 to 599, the statuses [raise_for_status] rejects), neither variant
    raises: the command-line client prints the diagnostic and returns the
    empty list, the web client returns the object [{"error": diagnostic}]. *)
Theorem C6_get_models_failure_values env self w :
  let req := models_request self 10 in
  (forall e, endpoint env (sent w) req = Raises e ->
     is_RequestException (cls e) = true ->
     Cli.get_models env self w =
       (Returns (VList []),
        log_output (log_request w req)
          (OutLine (py "Error getting models: " ++ msg e))) /\
     Web.get_models env self w =
       (Returns (VDict [(py "error", VStr (msg e))]), log_request w req)) /\
  (forall r, endpoint env (sent w) req = Returns r ->
     400 <= status_code r < 600 ->
     exists diagnostic,
       Cli.get_models env self w =
         (Returns (VList []),
          log_output (log_request w req)
            (OutLine (py "Error getting models: " ++ diagnostic))) /\
       Web.get_models env self w =
         (Returns (VDict [(py "error", VStr diagnostic)]), log_request w req)).
Proof.
  cbn zeta. rewrite cli_get_models_run, web_get_models_run. cbn zeta. split.
  - intros e -> He. cbn. rewrite He. split; reflexivity.
  - intros r -> Hs. destruct (raise_for_status_error r Hs) as (e & He & Hcls).
    exists (msg e). unfold decoded. cbn. rewrite He. cbn. rewrite Hcls. cbn.
    split; reflexivity.
Qed.

Lemma C6_witness :
  (exists diagnostic,
     Cli.get_models service_unavailable stub_client initial_world =
       (Returns (VList []),
        log_output (log_request initial_world (models_request stub_client 10))
          (OutLine (py "Error getting models: " ++ diagnostic))) /\
     Web.get_models service_unavailable stub_client initial_world =
       (Returns (VDict [(py "error", VStr diagnostic)]),
        log_request initial_world (models_request stub_client 10))) /\
  Cli.get_models unreachable stub_client initial_world =
    (Returns (VList []),
     log_output (log_request initial_world (models_request stub_client 10))
       (OutLine (py "Error getting models: " ++ py "Connection refused"))).
Proof.
  split.
  - destruct (C6_get_models_failure_values service_unavailable stub_client
                initial_world) as [_ H].
    apply (H (plain_response 503 (Returns VNone)) eq_refl). cbn. lia.
  - destruct (C6_get_models_failure_values unreachable stub_client initial_world)
      as [H _].
    destruct (H {| cls := ConnectionError; msg := py "Connection refused" |}
                eq_refl eq_refl) as [Hc _].
    exact Hc.
Defined.

(** C6, as stated, fails: an answer with status 300 is not 2xx, passes
    [raise_for_status], and its body without ["data"] makes both variants
    raise [KeyError]. *)
Lemma C6_counterexample :
  ~ (200 <= status_code (plain_response 300 (Returns (VDict []))) < 300) /\
  fst (Cli.get_models multiple_choices stub_client initial_world)
    = Raises {| cls := KeyError; msg := py "'data'" |} /\
  fst (Web.get_models multiple_choices stub_client initial_world)
    = Raises {| cls := KeyError; msg := py "'data'" |}.
Proof. split; [cbn; lia | split; reflexivity]. Qed.

(** With status 300 and a well-formed body the web variant returns the list,
    not an error object. *)
Example web_get_models_status_300 :
  fst (Web.get_models
         (stub_env (fun _ _ => Returns (plain_response 300
                      (Returns (VDict [(py "data", VList [])])))))
         stub_client initial_world) = Returns (VList []).
Proof. reflexivity. Qed.

(** ** C1: completions *)

(** C1, as amended. For every transcript (and every prompt): when the
    request fails with a [RequestException] (a transport error, an error
    status, a body [requests] cannot decode), the completion methods do not
    raise; the command-line client prints the diagnostic and returns [None],
    the web client returns [{"success": False, "error": diagnostic}]. When
    the body was decoded, the result is that of the lookups
    [["choices"][0]["message"]["content"]] (or [["text"]]): a body without
    these keys makes the lookup raise [KeyError], [IndexError] or
    [TypeError], which is not caught and reaches the caller. *)
Theorem C1_completion_failures env self messages prompt mt temp w :
  let chat := chat_request self messages mt temp in
  let legacy := prompt_request self prompt mt temp in
  (forall e, (r ← endpoint env (sent w) chat; decoded r) = Raises e ->
     is_RequestException (cls e) = true ->
     Cli.chat_completion env self messages mt temp w =
       (Returns VNone,
        log_output (log_request w chat)
          (OutLine (py "Error in chat completion: " ++ msg e))) /\
     Web.chat_completion env self messages mt temp w =
       (Returns (Web.Failure (msg e)), log_request w chat)) /\
  (forall e, (r ← endpoint env (sent w) legacy; decoded r) = Raises e ->
     is_RequestException (cls e) = true ->
     Cli.completion env self prompt mt temp w =
       (Returns VNone,
        log_output (log_request w legacy)
          (OutLine (py "Error in completion: " ++ msg e)))) /\
  (forall result, (r ← endpoint env (sent w) chat; decoded r) = Returns result ->
     Cli.chat_completion env self messages mt temp w =
       (chat_content result, log_request w chat) /\
     Web.chat_completion env self messages mt temp w =
       (web_chat_result result, log_request w chat)) /\
  (forall result, (r ← endpoint env (sent w) legacy; decoded r) = Returns result ->
     Cli.completion env self prompt mt temp w =
       (text_content result, log_request w legacy)) /\
  (forall result e,
     chat_content result = Raises e \/ text_content result = Raises e \/
     web_chat_result result = Raises e ->
     cls e = KeyError \/ cls e = IndexError \/ cls e = TypeError).
Proof.
  cbn zeta.
  rewrite cli_chat_completion_run, web_chat_completion_run, cli_completion_run.
  cbn zeta. unfold guarded. repeat split.
  - unfold_monad. destruct (endpoint env _ _) as [r|e']; cbn in *.
    + rewrite H. cbn. rewrite H0. reflexivity.
    + injection H as ->. rewrite H0. reflexivity.
  - unfold_monad. destruct (endpoint env _ _) as [r|e']; cbn in *.
    + rewrite H. cbn. rewrite H0. reflexivity.
    + injection H as ->. rewrite H0. reflexivity.
  - intros e He Hcls. unfold_monad.
    destruct (endpoint env _ _) as [r|e']; cbn in *.
    + rewrite He. cbn. rewrite Hcls. reflexivity.
    + injection He as ->. rewrite Hcls. reflexivity.
  - unfold_monad. destruct (endpoint env _ _) as [r|e']; cbn in *; [|discriminate].
    rewrite H. cbn. destruct (chat_content result) as [v|e] eqn:Hc; [reflexivity|].
    rewrite (lookup_not_RequestException _ (chat_content_raises _ _ Hc)).
    reflexivity.
  - unfold_monad. destruct (endpoint env _ _) as [r|e']; cbn in *; [|discriminate].
    rewrite H. cbn.
    destruct (web_chat_result result) as [v|e] eqn:Hc; [reflexivity|].
    rewrite (lookup_not_RequestException _ (web_chat_result_raises _ _ Hc)).
    reflexivity.
  - intros result Hr. unfold_monad.
    destruct (endpoint env _ _) as [r|e']; cbn in *; [|discriminate].
    rewrite Hr. cbn. destruct (text_content result) as [v|e] eqn:Hc; [reflexivity|].
    rewrite (lookup_not_RequestException _ (text_content_raises _ _ Hc)).
    reflexivity.
  - intros result e [H | [H | H]];
      eauto using chat_content_raises, text_content_raises, web_chat_result_raises.
Qed.

Lemma C1_witness :
  Cli.chat_completion unreachable stub_client [user (py "Hi")] 100
    default_temperature initial_world =
    (Returns VNone,
     log_output
       (log_request initial_world
          (chat_request stub_client [user (py "Hi")] 100 default_temperature))
       (OutLine (py "Error in chat completion: " ++ py "Connection refused"))) /\
  Web.chat_completion unreachable stub_client [user (py "Hi")] 100
    default_temperature initial_world =
    (Returns (Web.Failure (py "Connection refused")),
     log_request initial_world
       (chat_request stub_client [user (py "Hi")] 100 default_temperature)).
Proof.
  destruct (C1_completion_failures unreachable stub_client [user (py "Hi")]
              (py "The future of AI is") 100 default_temperature initial_world)
    as [H _].
  exact (H {| cls := ConnectionError; msg := py "Connection refused" |}
           eq_refl eq_refl).
Defined.

(** C1, as stated, fails: a body without ["choices"] makes the three
    completion methods raise [KeyError] instead of returning a failure
    value. *)
Lemma C1_counterexample :
  fst (Cli.chat_completion empty_object stub_client [user (py "Hi")] 100
         default_temperature initial_world)
    = Raises {| cls := KeyError; msg := py "'choices'" |} /\
  fst (Cli.completion empty_object stub_client (py "The future of AI is") 100
         default_temperature initial_world)
    = Raises {| cls := KeyError; msg := py "'choices'" |} /\
  fst (Web.chat_completion empty_object stub_client [user (py "Hi")] 200
         default_temperature initial_world)
    = Raises {| cls := KeyError; msg := py "'choices'" |}.
Proof. repeat split. Qed.

(** ** C7: timeouts *)

Lemma issued_guarded {A} (o : outcome A) w req failure :
  (forall e, sent (snd (failure e)) = sent w ++ [req]) ->
  drop (length (sent w)) (sent (snd (guarded o (log_request w req) failure)))
  = [req].
Proof.
  intros Hf. unfold guarded.
  destruct o as [a|e]; [|destruct (is_RequestException (cls e))]; cbn;
    rewrite ?Hf; apply drop_app_length.
Qed.

Lemma issued_cli_health_check env self w :
  issued (Cli.health_check env self) w = [health_request self 10].
Proof.
  unfold issued. rewrite cli_health_check_run. now apply issued_guarded.
Qed.

Lemma issued_web_health_check env self w :
  issued (Web.health_check env self) w = [health_request self 5].
Proof.
  unfold issued. rewrite web_health_check_run. now apply issued_guarded.
Qed.

Lemma issued_cli_get_models env self w :
  issued (Cli.get_models env self) w = [models_request self 10].
Proof.
  unfold issued. rewrite cli_get_models_run. now apply issued_guarded.
Qed.

Lemma issued_web_get_models env self w :
  issued (Web.get_models env self) w = [models_request self 10].
Proof.
  unfold issued. rewrite web_get_models_run. now apply issued_guarded.
Qed.

Lemma issued_cli_chat_completion env self messages mt temp w :
  issued (Cli.chat_completion env self messages mt temp) w
  = [chat_request self messages mt temp].
Proof.
  unfold issued. rewrite cli_chat_completion_run. now apply issued_guarded.
Qed.

Lemma issued_cli_completion env self prompt mt temp w :
  issued (Cli.completion env self prompt mt temp) w
  = [prompt_request self prompt mt temp].
Proof.
  unfold issued. rewrite cli_completion_run. now apply issued_guarded.
Qed.

Lemma issued_web_chat_completion env self messages mt temp w :
  issued (Web.chat_completion env self messages mt temp) w
  = [chat_request self messages mt temp].
Proof.
  unfold issued. rewrite web_chat_completion_run. now apply issued_guarded.
Qed.

(** C7, as amended. In every client operation the health check and the model
    listing are bounded by at most 10 seconds (5 for the web health check,
    10 for the command-line health check and for both model listings), the
    completions by 30 seconds, and each of the former timeouts is strictly
    shorter than each of the latter. *)
Theorem C7_timeouts env self messages prompt mt temp w :
  let short :=
    issued (Cli.health_check env self) w ++ issued (Cli.get_models env self) w
    ++ issued (Web.health_check env self) w ++ issued (Web.get_models env self) w in
  let long :=
    issued (Cli.chat_completion env self messages mt temp) w
    ++ issued (Cli.completion env self prompt mt temp) w
    ++ issued (Web.chat_completion env self messages mt temp) w in
  timeout <$> short = [10; 10; 5; 10] /\
  timeout <$> long = [30; 30; 30] /\
  Forall (fun s => 0 < timeout s <= 10) short /\
  Forall (fun l => 10 <= timeout l < 100) long /\
  Forall (fun s => Forall (fun l => timeout s < timeout l) long) short.
Proof.
  cbn zeta.
  rewrite issued_cli_health_check, issued_cli_get_models,
    issued_web_health_check, issued_web_get_models,
    issued_cli_chat_completion, issued_cli_completion,
    issued_web_chat_completion.
  cbn. repeat split; repeat constructor; cbn; lia.
Qed.

(** C7, as stated, fails: the health check of the command-line client waits
    up to 10 seconds, which is not a single-digit number. *)
Lemma C7_counterexample :
  ~ Forall (fun r => timeout r <= 9)
      (issued (Cli.health_check unreachable stub_client) initial_world).
Proof.
  rewrite issued_cli_health_check. intros H.
  apply Forall_cons_1 in H as [H _]. cbn in H. lia.
Qed.

(** ** C9: repeated completions *)

Lemma fst_guarded {A} (o : outcome A) w failure :
  fst (guarded o w failure) =
  match o with
  | Returns a => Returns a
  | Raises e => if is_RequestException (cls e) then fst (failure e) else Raises e
  end.
Proof. destruct o as [a|e]; cbn; [|destruct (is_RequestException _)]; reflexivity. Qed.

Lemma sent_guarded {A} (o : outcome A) w req failure :
  (forall e, sent (snd (failure e)) = sent w ++ [req]) ->
  sent (snd (guarded o (log_request w req) failure)) = sent w ++ [req].
Proof.
  intros Hf. unfold guarded.
  destruct o as [a|e]; [|destruct (is_RequestException (cls e))]; cbn;
    rewrite ?Hf; reflexivity.
Qed.

(** C9. Against a deterministic stub endpoint, calling a completion method
    twice in a row with the same arguments returns the same result both
    times, and both calls issue the same request: nothing the first call
    leaves behind is read by the second. *)
Theorem C9_completion_repeatable env self messages prompt mt temp w :
  deterministic env ->
  let chat := Cli.chat_completion env self messages mt temp in
  let legacy := Cli.completion env self prompt mt temp in
  let web := Web.chat_completion env self messages mt temp in
  (fst (chat (snd (chat w))) = fst (chat w) /\
   sent (snd (chat (snd (chat w)))) =
     sent w ++ [chat_request self messages mt temp;
                chat_request self messages mt temp]) /\
  (fst (legacy (snd (legacy w))) = fst (legacy w) /\
   sent (snd (legacy (snd (legacy w)))) =
     sent w ++ [prompt_request self prompt mt temp;
                prompt_request self prompt mt temp]) /\
  (fst (web (snd (web w))) = fst (web w) /\
   sent (snd (web (snd (web w)))) =
     sent w ++ [chat_request self messages mt temp;
                chat_request self messages mt temp]).
Proof.
  intros Hdet. cbn zeta. repeat split.
  - rewrite !cli_chat_completion_run. cbn zeta. rewrite !fst_guarded.
    now rewrite (Hdet _ (sent w)).
  - rewrite (cli_chat_completion_run _ _ _ _ _ (snd _)). cbn zeta.
    rewrite sent_guarded by reflexivity.
    rewrite cli_chat_completion_run. cbn zeta.
    rewrite sent_guarded by reflexivity. now rewrite <- app_assoc.
  - rewrite !cli_completion_run. cbn zeta. rewrite !fst_guarded.
    now rewrite (Hdet _ (sent w)).
  - rewrite (cli_completion_run _ _ _ _ _ (snd _)). cbn zeta.
    rewrite sent_guarded by reflexivity.
    rewrite cli_completion_run. cbn zeta.
    rewrite sent_guarded by reflexivity. now rewrite <- app_assoc.
  - rewrite !web_chat_completion_run. cbn zeta. rewrite !fst_guarded.
    now rewrite (Hdet _ (sent w)).
  - rewrite (web_chat_completion_run _ _ _ _ _ (snd _)). cbn zeta.
    rewrite sent_guarded by reflexivity.
    rewrite web_chat_completion_run. cbn zeta.
    rewrite sent_guarded by reflexivity. now rewrite <- app_assoc.
Qed.

Lemma C9_witness :
  deterministic greeter /\
  fst (Cli.chat_completion greeter stub_client [user (py "Hi")] 100
         default_temperature
         (snd (Cli.chat_completion greeter stub_client [user (py "Hi")] 100
                 default_temperature initial_world)))
  = fst (Cli.chat_completion greeter stub_client [user (py "Hi")] 100
           default_temperature initial_world).
Proof.
  assert (Hdet : deterministic greeter) by (intros h h' r; reflexivity).
  split; [exact Hdet|].
  exact (proj1 (proj1 (C9_completion_repeatable greeter stub_client
                         [user (py "Hi")] (py "The future of AI is") 100
                         default_temperature initial_world Hdet))).
Defined.

(** Determinism of the endpoint is needed: a service that counts the
    requests it has seen answers the second call differently. *)
Example counting_service_differs :
  fst (Cli.chat_completion counting_service stub_client [user (py "Hi")] 100
         default_temperature
         (snd (Cli.chat_completion counting_service stub_client [user (py "Hi")]
                 100 default_temperature initial_world)))
  <> fst (Cli.chat_completion counting_service stub_client [user (py "Hi")] 100
            default_temperature initial_world).
Proof. vm_compute. discriminate. Qed.

(** ** C3: endpoint resolution *)

Lemma nonempty_true s : nonempty s = true <-> s <> [].
Proof.
  unfold nonempty. rewrite negb_true_iff, bool_decide_eq_false. reflexivity.
Qed.

Lemma nonempty_false s : nonempty s = false <-> s = [].
Proof.
  unfold nonempty. rewrite negb_false_iff, bool_decide_eq_true. reflexivity.
Qed.

(** The constructor resolves in the order of the specification and always
    returns. *)
Lemma cli_init_resolves env override w :
  fst (Cli.__init__ env override w) =
  Returns {| base_url := resolve_in_order override (env_source env)
                           (discovery_source env);
             model := model_name |}.
Proof.
  unfold Cli.__init__, resolve_in_order, env_source, discovery_source, env_truthy.
  unfold_monad. destruct override as [u|]; cbn; [reflexivity|].
  destruct (environ env _) as [ip|]; cbn.
  - destruct (nonempty ip); cbn; [reflexivity|].
    destruct (subprocess_run env kubectl_query) as [result|e]; cbn;
      [destruct (_ && _)|]; reflexivity.
  - destruct (subprocess_run env kubectl_query) as [result|e]; cbn;
      [destruct (_ && _)|]; reflexivity.
Qed.

(** [kubectl] is run only when neither override nor variable gave a result. *)
Lemma cli_init_spawns env override w :
  spawned (snd (Cli.__init__ env override w)) =
  match override, env_source env with
  | None, None => spawned w ++ [kubectl_query]
  | _, _ => spawned w
  end.
Proof.
  unfold Cli.__init__, env_source, env_truthy.
  unfold_monad. destruct override as [u|]; cbn; [reflexivity|].
  destruct (environ env _) as [ip|]; cbn.
  - destruct (nonempty ip); cbn; [reflexivity|].
    destruct (subprocess_run env kubectl_query) as [result|e]; cbn;
      [destruct (_ && _)|]; reflexivity.
  - destruct (subprocess_run env kubectl_query) as [result|e]; cbn;
      [destruct (_ && _)|]; reflexivity.
Qed.

Lemma web_base_url_resolves env w :
  (forall e, subprocess_run env kubectl_query = Raises e ->
             is_Exception (cls e) = true) ->
  fst (Web.get_vllm_base_url env w) =
  Returns (resolve_in_order None (env_source env) (discovery_source env)).
Proof.
  intros Herr.
  unfold Web.get_vllm_base_url, resolve_in_order, env_source, discovery_source,
    env_truthy.
  unfold_monad.
  destruct (environ env _) as [ip|]; cbn.
  - destruct (nonempty ip); cbn; [reflexivity|].
    destruct (subprocess_run env kubectl_query) as [result|e] eqn:Hrun; cbn;
      [destruct (_ && _); reflexivity|].
    rewrite (Herr e eq_refl). reflexivity.
  - destruct (subprocess_run env kubectl_query) as [result|e] eqn:Hrun; cbn;
      [destruct (_ && _); reflexivity|].
    rewrite (Herr e eq_refl). reflexivity.
Qed.

Lemma web_base_url_spawns env w :
  spawned (snd (Web.get_vllm_base_url env w)) =
  match env_source env with
  | None => spawned w ++ [kubectl_query]
  | Some _ => spawned w
  end.
Proof.
  unfold Web.get_vllm_base_url, env_source, env_truthy.
  unfold_monad.
  destruct (environ env _) as [ip|]; cbn.
  - destruct (nonempty ip); cbn; [reflexivity|].
    destruct (subprocess_run env kubectl_query) as [result|e]; cbn;
      [destruct (_ && _)|destruct (is_Exception _)]; reflexivity.
  - destruct (subprocess_run env kubectl_query) as [result|e]; cbn;
      [destruct (_ && _)|destruct (is_Exception _)]; reflexivity.
Qed.

Lemma discovery_fails_source env :
  discovery_fails env -> discovery_source env = None.
Proof.
  unfold discovery_fails, discovery_source.
  destruct (subprocess_run env kubectl_query) as [result|e]; [|reflexivity].
  intros [Hrc | Hout].
  - apply Z.eqb_neq in Hrc. now rewrite Hrc.
  - apply nonempty_false in Hout. rewrite Hout. now rewrite andb_false_r.
Qed.

Lemma discovery_fails_Exception env e :
  discovery_fails env ->
  subprocess_run env kubectl_query = Raises e -> is_Exception (cls e) = true.
Proof. unfold discovery_fails. intros H Hrun. now rewrite Hrun in H. Qed.

(** With the variable set the web variant needs no discovery. *)
Lemma web_base_url_from_env env w ip :
  env_source env = Some ip ->
  fst (Web.get_vllm_base_url env w) = Returns (url_of_ip ip).
Proof.
  unfold Web.get_vllm_base_url, env_source, env_truthy. unfold_monad.
  destruct (environ env _) as [ip'|]; [|discriminate].
  destruct (nonempty ip'); [|discriminate]. now intros [= ->].
Qed.

(** C3. Both programs resolve the base URL from the sources in the order
    given by [resolve_in_order]: the caller's override, the variable
    [VLLM_IP], the [kubectl] query, the fallback; [kubectl] is run only when
    the earlier sources gave nothing. With [VLLM_IP=10.0.0.5] (and no
    override) the base URL is "http://10.0.0.5:8080"; without the variable
    and with a discovery command that fails or times out it is
    "http://localhost:8080". Resolution returns and does not raise: the
    command-line client catches whatever the discovery step raises, the web
    variant every error (every [Exception]), and both go on to the
    fallback. *)
Theorem C3_endpoint_resolution env w :
  (forall override,
     fst (Cli.__init__ env override w) =
       Returns {| base_url := resolve_in_order override (env_source env)
                                (discovery_source env);
                  model := model_name |} /\
     spawned (snd (Cli.__init__ env override w)) =
       match override, env_source env with
       | None, None => spawned w ++ [kubectl_query]
       | _, _ => spawned w
       end) /\
  (((forall e, subprocess_run env kubectl_query = Raises e ->
               is_Exception (cls e) = true) ->
    fst (Web.get_vllm_base_url env w) =
      Returns (resolve_in_order None (env_source env) (discovery_source env))) /\
   spawned (snd (Web.get_vllm_base_url env w)) =
     match env_source env with
     | None => spawned w ++ [kubectl_query]
     | Some _ => spawned w
     end /\
   forall V override,
     base_url (Web.__init__ V override) =
     match override with
     | Some u => if nonempty u then u else V
     | None => V
     end) /\
  (environ env (py "VLLM_IP") = Some (py "10.0.0.5") ->
   fst (Cli.__init__ env None w) =
     Returns {| base_url := py "http://10.0.0.5:8080"; model := model_name |} /\
   fst (Web.get_vllm_base_url env w) = Returns (py "http://10.0.0.5:8080")) /\
  (environ env (py "VLLM_IP") = None -> discovery_fails env ->
   fst (Cli.__init__ env None w) =
     Returns {| base_url := py "http://localhost:8080"; model := model_name |} /\
   fst (Web.get_vllm_base_url env w) = Returns (py "http://localhost:8080")).
Proof.
  repeat split.
  - apply cli_init_resolves.
  - apply cli_init_spawns.
  - apply web_base_url_resolves.
  - apply web_base_url_spawns.
  - intros V [u|]; reflexivity.
  - rewrite cli_init_resolves. unfold env_source. rewrite H. reflexivity.
  - apply (web_base_url_from_env env w (py "10.0.0.5")).
    unfold env_source. now rewrite H.
  - rewrite cli_init_resolves. unfold env_source. rewrite H.
    now rewrite discovery_fails_source.
  - rewrite web_base_url_resolves by eauto using discovery_fails_Exception.
    unfold env_source. rewrite H. now rewrite discovery_fails_source.
Qed.

Lemma C3_witness :
  fst (Cli.__init__ configured None initial_world) =
    Returns {| base_url := py "http://10.0.0.5:8080"; model := model_name |} /\
  fst (Web.get_vllm_base_url unreachable initial_world) =
    Returns (py "http://localhost:8080").
Proof.
  split.
  - destruct (C3_endpoint_resolution configured initial_world)
      as (_ & _ & H & _).
    exact (proj1 (H eq_refl)).
  - destruct (C3_endpoint_resolution unreachable initial_world)
      as (_ & _ & _ & H).
    exact (proj2 (H eq_refl eq_refl)).
Defined.

(** With an interrupt during the query the two variants differ: the bare
    [except:] of the command-line client swallows it, [except Exception] of
    the web variant lets it pass. *)
Example interrupted_discovery :
  let env := {| environ := fun _ => None;
                subprocess_run := fun _ =>
                  Raises {| cls := KeyboardInterrupt; msg := [] |};
                endpoint := endpoint unreachable;
                unicode_lower := unicode_lower unreachable;
                uuid4 := uuid4 unreachable |} in
  fst (Cli.__init__ env None initial_world) =
    Returns {| base_url := py "http://localhost:8080"; model := model_name |} /\
  fst (Web.get_vllm_base_url env initial_world) =
    Raises {| cls := KeyboardInterrupt; msg := [] |}.
Proof. split; reflexivity. Qed.

(** ** The chat route *)

Ltac unfold_web :=
  unfold Web.serve, Web.view, Web.api_chat, Web.api_clear, Web.index,
    Web.value_strip, Web.in_world, Web.new_list, Web.list_append, Web.list_read,
    Web.get_session, Web.session_set_history, Web.session_set_id,
    Web.open_session, Web.save_session, Web.session_empty, Web.transcript_of
    in *.

Lemma lstrip_blank s : forallb isspace s = true -> lstrip s = [].
Proof.
  induction s as [|c s IH]; cbn; [reflexivity|].
  intros [Hc Hs]%andb_true_iff. rewrite Hc. auto.
Qed.

Lemma strip_blank s : forallb isspace s = true -> strip s = [].
Proof. intros H. unfold strip. now rewrite (lstrip_blank s H). Qed.

(** C4. A POST to /api/chat whose body has a ['message'] that is empty or
    consists of white space only is answered with status 400 and a body with
    an [error] field; the session cookie, and so the transcript, stays as it
    was, and the world is unchanged: no request goes downstream. *)
Theorem C4_blank_message_rejected env app cookie w d s :
  assoc (py "message") d = Some (VStr s) ->
  forallb isspace s = true ->
  Web.serve env app (Web.PostChat (VDict d)) cookie w =
    (Web.Replied
       (Web.Json (VDict [(py "error", VStr (py "Message cannot be empty"))]) 400),
     cookie, w).
Proof.
  intros Hmsg Hblank. unfold_web. unfold_monad. cbn. rewrite Hmsg. cbn.
  rewrite (strip_blank s Hblank). cbn.
  destruct cookie as [[[id|] [h|]]|]; reflexivity.
Qed.

Lemma C4_witness :
  Web.serve greeter stub_app
    (Web.PostChat (VDict [(py "message", VStr (py "  "))]))
    (Some {| Web.c_session_id := None;
             Web.c_chat_history := Some [user (py "Hi")] |})
    initial_world =
    (Web.Replied
       (Web.Json (VDict [(py "error", VStr (py "Message cannot be empty"))]) 400),
     Some {| Web.c_session_id := None;
             Web.c_chat_history := Some [user (py "Hi")] |},
     initial_world).
Proof.
  apply (C4_blank_message_rejected greeter stub_app _ initial_world
           [(py "message", VStr (py "  "))] (py "  ")); reflexivity.
Defined.

(** What one accepted POST to /api/chat does, by the result of the
    completion: the transcript sent downstream is the session's transcript
    followed by the new user message. *)
Lemma serve_chat env app cookie w d s :
  assoc (py "message") d = Some (VStr s) ->
  strip s <> [] ->
  let transcript := Web.transcript_of cookie ++ [user (strip s)] in
  Web.serve env app (Web.PostChat (VDict d)) cookie w =
  match Web.chat_completion env (Web.vllm_client app) transcript 200
          default_temperature w with
  | (Returns (Web.Success content usage), w') =>
      (Web.Replied
         (Web.Json (VDict [(py "success", VBool true);
                           (py "response", content);
                           (py "usage", usage)]) 200),
       Some {| Web.c_session_id := cookie ≫= Web.c_session_id;
               Web.c_chat_history := Some (transcript ++ [assistant content]) |},
       w')
  | (Returns (Web.Failure error), w') =>
      (Web.Replied
         (Web.Json (VDict [(py "success", VBool false);
                           (py "error", VStr error)]) 500),
       cookie, w')
  | (Raises e, w') => (Web.ServerError e, cookie, w')
  end.
Proof.
  intros Hmsg Hs. apply nonempty_true in Hs. cbn zeta.
  unfold Web.serve, Web.view, Web.api_chat.
  unfold Web.value_strip, Web.in_world, Web.new_list, Web.list_append,
    Web.list_read, Web.get_session, Web.session_set_history, Web.open_session,
    Web.save_session, Web.session_empty, Web.transcript_of.
  unfold lift_outcome, modify, mbind, M_bind, mret, M_ret. cbn.
  rewrite Hmsg. cbn. rewrite Hs. cbn.
  destruct cookie as [[[id|] [h|]]|]; cbn;
    destruct (Web.chat_completion _ _ _ _ _ _) as [[[c u|err]|e] w']; reflexivity.
Qed.

Lemma sent_web_chat_completion env self messages mt temp w :
  sent (snd (Web.chat_completion env self messages mt temp w)) =
  sent w ++ [chat_request self messages mt temp].
Proof. rewrite web_chat_completion_run. now apply sent_guarded. Qed.

Lemma sent_cli_chat_completion env self messages mt temp w :
  sent (snd (Cli.chat_completion env self messages mt temp w)) =
  sent w ++ [chat_request self messages mt temp].
Proof. rewrite cli_chat_completion_run. now apply sent_guarded. Qed.

(** An accepted POST to /api/chat issues one request: the completion of the
    session's transcript followed by the new message. *)
Lemma serve_chat_sent env app cookie w d s :
  assoc (py "message") d = Some (VStr s) ->
  strip s <> [] ->
  sent (snd (Web.serve env app (Web.PostChat (VDict d)) cookie w)) =
  sent w ++ [chat_request (Web.vllm_client app)
               (Web.transcript_of cookie ++ [user (strip s)]) 200
               default_temperature].
Proof.
  intros Hmsg Hs. rewrite (serve_chat _ _ _ _ _ _ Hmsg Hs). cbn zeta.
  rewrite <- sent_web_chat_completion with (env := env).
  destruct (Web.chat_completion _ _ _ _ _ _) as [[[c u|err]|e] w']; reflexivity.
Qed.

(** A completion that raises (a malformed body) is answered with status 500
    by the server itself; the cookie stays as it was. *)
Lemma serve_chat_raises env app cookie w d s e w' :
  assoc (py "message") d = Some (VStr s) ->
  strip s <> [] ->
  Web.chat_completion env (Web.vllm_client app)
    (Web.transcript_of cookie ++ [user (strip s)]) 200 default_temperature w
    = (Raises e, w') ->
  Web.serve env app (Web.PostChat (VDict d)) cookie w
  = (Web.ServerError e, cookie, w').
Proof.
  intros Hmsg Hs Hraise. pose proof (serve_chat env app cookie w d s Hmsg Hs) as H.
  cbn zeta in H. now rewrite Hraise in H.
Qed.

(** ** C2: the transcript accumulates *)

(** C2. On a session whose transcript is empty, a POST to /api/chat with
    "Hi" whose completion succeeds with some reply, followed by a POST with
    "How are you?" from the same browser, makes the second downstream
    completion call carry exactly three messages in this order: user "Hi",
    the assistant's reply, user "How are you?". *)
Theorem C2_transcript_accumulates env app cookie w reply usage :
  Web.transcript_of cookie = [] ->
  fst (Web.chat_completion env (Web.vllm_client app) [user (py "Hi")] 200
         default_temperature w) = Returns (Web.Success reply usage) ->
  let '(_, cookie1, w1) :=
    Web.serve env app (Web.PostChat (VDict [(py "message", VStr (py "Hi"))]))
      cookie w in
  let '(_, cookie2, w2) :=
    Web.serve env app
      (Web.PostChat (VDict [(py "message", VStr (py "How are you?"))]))
      cookie1 w1 in
  Web.transcript_of cookie1 = [user (py "Hi"); assistant reply] /\
  sent w2 = sent w ++
    [chat_request (Web.vllm_client app) [user (py "Hi")] 200 default_temperature;
     chat_request (Web.vllm_client app)
       [user (py "Hi"); assistant reply; user (py "How are you?")] 200
       default_temperature].
Proof.
  intros Hfresh Hok.
  assert (Hhi : strip (py "Hi") <> []) by (vm_compute; discriminate).
  assert (Hhow : strip (py "How are you?") <> []) by (vm_compute; discriminate).
  pose proof (serve_chat env app cookie w [(py "message", VStr (py "Hi"))]
                (py "Hi") eq_refl Hhi) as H1.
  cbn zeta in H1. rewrite Hfresh in H1.
  change (strip (py "Hi")) with (py "Hi") in H1.
  change ([] ++ [user (py "Hi")]) with [user (py "Hi")] in H1.
  pose proof (sent_web_chat_completion env (Web.vllm_client app)
                [user (py "Hi")] 200 default_temperature w) as Hsent1.
  destruct (Web.chat_completion env (Web.vllm_client app) [user (py "Hi")] 200
              default_temperature w) as [r w1].
  cbn in Hok, Hsent1. subst r. rewrite H1.
  pose proof (serve_chat_sent env app
                (Some {| Web.c_session_id := cookie ≫= Web.c_session_id;
                         Web.c_chat_history :=
                           Some [user (py "Hi"); assistant reply] |})
                w1 [(py "message", VStr (py "How are you?"))]
                (py "How are you?") eq_refl Hhow) as H2.
  change (strip (py "How are you?")) with (py "How are you?") in H2.
  destruct (Web.serve env app _ _ w1) as [[r2 cookie2] w2].
  cbn in H2. split; [reflexivity|].
  rewrite H2, Hsent1, <- app_assoc. reflexivity.
Qed.

(** Sessions with an empty transcript: a browser without cookie, and a
    browser that has only loaded the page. *)
Lemma fresh_sessions env app w :
  Web.transcript_of None = [] /\
  Web.transcript_of (Web.serve env app Web.GetIndex None w).1.2 = [].
Proof. split; reflexivity. Qed.

Lemma C2_witness :
  let cookie := (Web.serve greeter stub_app Web.GetIndex None initial_world).1.2 in
  let '(_, cookie1, w1) :=
    Web.serve greeter stub_app
      (Web.PostChat (VDict [(py "message", VStr (py "Hi"))])) cookie
      initial_world in
  let '(_, cookie2, w2) :=
    Web.serve greeter stub_app
      (Web.PostChat (VDict [(py "message", VStr (py "How are you?"))]))
      cookie1 w1 in
  Web.transcript_of cookie1 = [user (py "Hi"); assistant (VStr (py "Hello!"))] /\
  sent w2 = sent initial_world ++
    [chat_request stub_client [user (py "Hi")] 200 default_temperature;
     chat_request stub_client
       [user (py "Hi"); assistant (VStr (py "Hello!")); user (py "How are you?")]
       200 default_temperature].
Proof.
  exact (C2_transcript_accumulates greeter stub_app
           (Web.serve greeter stub_app Web.GetIndex None initial_world).1.2
           initial_world (VStr (py "Hello!"))
           (VDict [(py "total_tokens", VInt 12)]) eq_refl eq_refl).
Defined.

(** ** C10: a failed completion leaves the session as it was *)

(** C10, as amended. A POST to /api/chat with a non-empty message whose
    completion fails leaves the session as it was, whatever the failure.
    When the request fails with a [RequestException] (a transport error, an
    error status, a body [requests] cannot decode), the reply has status 500
    and the body [{"success": False, "error": diagnostic}]. When the body
    was decoded but lacks the expected keys, the lookup's exception leaves
    the view and the server answers 500 with its own error page. In both
    cases the browser keeps the cookie it had, and the next POST from the
    same browser sends the transcript from before the request followed by
    its own message, without the message of the failed request. *)
Theorem C10_failed_completion_keeps_transcript env app cookie w d s e :
  assoc (py "message") d = Some (VStr s) ->
  strip s <> [] ->
  let req := chat_request (Web.vllm_client app)
               (Web.transcript_of cookie ++ [user (strip s)]) 200
               default_temperature in
  (r ← endpoint env (sent w) req; result ← decoded r; web_chat_result result)
    = Raises e ->
  Web.serve env app (Web.PostChat (VDict d)) cookie w =
    (if is_RequestException (cls e)
     then Web.Replied
            (Web.Json (VDict [(py "success", VBool false);
                              (py "error", VStr (msg e))]) 500)
     else Web.ServerError e,
     cookie, log_request w req) /\
  forall d2 s2,
    assoc (py "message") d2 = Some (VStr s2) ->
    strip s2 <> [] ->
    sent (snd (Web.serve env app (Web.PostChat (VDict d2))
                 (Web.serve env app (Web.PostChat (VDict d)) cookie w).1.2
                 (log_request w req))) =
    sent (log_request w req)
    ++ [chat_request (Web.vllm_client app)
          (Web.transcript_of cookie ++ [user (strip s2)]) 200
          default_temperature].
Proof.
  intros Hmsg Hs req Hfail.
  assert (H : Web.serve env app (Web.PostChat (VDict d)) cookie w =
              (if is_RequestException (cls e)
               then Web.Replied
                      (Web.Json (VDict [(py "success", VBool false);
                                        (py "error", VStr (msg e))]) 500)
               else Web.ServerError e,
               cookie, log_request w req)).
  { rewrite (serve_chat env app cookie w d s Hmsg Hs). cbn zeta.
    rewrite web_chat_completion_run. cbn zeta. fold req. rewrite Hfail.
    unfold guarded. now destruct (is_RequestException (cls e)). }
  split; [exact H|].
  intros d2 s2 Hmsg2 Hs2. rewrite H. cbn [fst snd].
  now apply serve_chat_sent.
Qed.

Lemma C10_witness :
  let cookie := Some {| Web.c_session_id := None;
                        Web.c_chat_history := Some [user (py "Hi")] |} in
  Web.serve unreachable stub_app
    (Web.PostChat (VDict [(py "message", VStr (py "again"))])) cookie
    initial_world =
    (Web.Replied
       (Web.Json (VDict [(py "success", VBool false);
                         (py "error", VStr (py "Connection refused"))]) 500),
     cookie,
     log_request initial_world
       (chat_request stub_client [user (py "Hi"); user (py "again")] 200
          default_temperature)).
Proof.
  refine (proj1 (C10_failed_completion_keeps_transcript unreachable stub_app _
                   initial_world [(py "message", VStr (py "again"))]
                   (py "again")
                   {| cls := ConnectionError; msg := py "Connection refused" |}
                   eq_refl _ eq_refl)).
  vm_compute. discriminate.
Defined.

(** C10, as stated, fails: when the service answers 200 with a body without
    ["choices"] the completion fails by raising [KeyError]; the browser does
    not receive [{"success": False, "error": ...}] but the server's own
    error page. The session is still left as it was. *)
Lemma C10_counterexample :
  let cookie := Some {| Web.c_session_id := None;
                        Web.c_chat_history := Some [user (py "Hi")] |} in
  Web.serve empty_object stub_app
    (Web.PostChat (VDict [(py "message", VStr (py "again"))])) cookie
    initial_world =
    (Web.ServerError {| cls := KeyError; msg := py "'choices'" |},
     cookie,
     log_request initial_world
       (chat_request stub_client [user (py "Hi"); user (py "again")] 200
          default_temperature)).
Proof. reflexivity. Qed.

(** During the failed request the list object of the session does receive
    the user's message; the change is lost because the session was not
    marked as modified and the cookie is not written. *)
Example failed_chat_changes_the_request_copy :
  let cookie := Some {| Web.c_session_id := None;
                        Web.c_chat_history := Some [user (py "Hi")] |} in
  let c := snd (Web.api_chat unreachable stub_app
                  (VDict [(py "message", VStr (py "again"))])
                  (Web.open_session cookie initial_world)) in
  Web.heap c !! 0%nat = Some [user (py "Hi"); user (py "again")] /\
  Web.modified (Web.session c) = false /\
  Web.save_session c cookie = cookie.
Proof. repeat split. Qed.

(** ** C8: the interactive loop *)

Ltac unfold_cli :=
  unfold Cli.loop_body, Cli.input, Cli.in_world, Cli.set_messages,
    Cli.append_message, Cli.get_messages in *.

Lemma Exception_not_KeyboardInterrupt c :
  is_Exception c = true -> is_KeyboardInterrupt c = false.
Proof. destruct c; cbn; congruence. Qed.

Lemma lookup_is_Exception c :
  c = KeyError \/ c = IndexError \/ c = TypeError -> is_Exception c = true.
Proof. intros [-> | [-> | ->]]; reflexivity. Qed.

(** Without interrupts a completion raises nothing but [Exception]s. *)
Lemma cli_chat_completion_raises env self messages mt temp w e :
  no_interrupts env ->
  fst (Cli.chat_completion env self messages mt temp w) = Raises e ->
  is_Exception (cls e) = true.
Proof.
  intros Hni. rewrite cli_chat_completion_run. cbn zeta. rewrite fst_guarded.
  specialize (Hni (sent w) (chat_request self messages mt temp)).
  unfold decoded. unfold_monad.
  destruct (endpoint env _ _) as [r|e0]; cbn.
  - destruct (raise_for_status r) as [[]|e1] eqn:Hst; cbn.
    + destruct (json r) as [j|e2]; cbn.
      * destruct (chat_content j) as [v|e3] eqn:Hc; [discriminate|].
        pose proof (chat_content_raises _ _ Hc) as Hcls.
        rewrite (lookup_not_RequestException _ Hcls).
        intros [= <-]. now apply lookup_is_Exception.
      * destruct (is_RequestException (cls e2)); [discriminate|].
        now intros [= <-].
    + rewrite (raise_for_status_HTTPError _ _ Hst). discriminate.
  - destruct (is_RequestException (cls e0)); [discriminate|]. now intros [= <-].
Qed.

(** The constructor issues no request. *)
Lemma cli_init_sent env override w :
  sent (snd (Cli.__init__ env override w)) = sent w.
Proof.
  unfold Cli.__init__. unfold_monad. destruct override as [u|]; cbn; [reflexivity|].
  destruct (env_truthy _); cbn; [reflexivity|].
  destruct (subprocess_run env kubectl_query) as [result|e]; cbn;
    [destruct (_ && _)|]; reflexivity.
Qed.


(** A line that reads [quit] or [exit] once stripped and lowered ends the
    loop. *)
Lemma loop_body_quit env client line f :
  existsb (str_eqb (lower (unicode_lower env) (strip line)))
    [py "quit"; py "exit"] = true ->
  Cli.loop_body env client (Cli.Typed line) f =
  (Returns Cli.Break,
   {| Cli.world := log_output (log_output (Cli.world f) (OutText (py "You: ")))
                     (OutLine Cli.goodbye);
      Cli.messages := Cli.messages f |}).
Proof.
  intros Hq. unfold_cli. unfold_monad. cbn -[existsb str_eqb lower strip].
  rewrite Hq. reflexivity.
Qed.

(** A line that reads [clear] empties the transcript and issues nothing. *)
Lemma loop_body_clear env client line f :
  lower (unicode_lower env) (strip line) = py "clear" ->
  Cli.loop_body env client (Cli.Typed line) f =
  (Returns Cli.Continue,
   {| Cli.world := log_output (log_output (Cli.world f) (OutText (py "You: ")))
                     (OutLine (py "Conversation history cleared."));
      Cli.messages := [] |}).
Proof.
  intros Hc. unfold_cli. unfold_monad. cbn -[existsb str_eqb lower strip].
  rewrite Hc. reflexivity.
Qed.




(** When the script runs out the loop does not leave: [input] keeps raising
    [EOFError]. *)
Example script_without_quit :
  fst (Cli.interactive_chat greeter [Cli.Typed (py "hello")] initial_world)
  = Returns Cli.SpinsOnEOF.
Proof. reflexivity. Qed.

(** An interrupt at the prompt leaves the loop. *)
Example interrupt_leaves :
  fst (Cli.interactive_chat greeter [Cli.Interrupt; Cli.Typed (py "hello")]
         initial_world)
  = Returns Cli.Left.
Proof. reflexivity. Qed.

(** * Further properties *)

(** ** White space *)

Lemma lstrip_nil_blank s : lstrip s = [] -> forallb isspace s = true.
Proof.
  induction s as [|c s IH]; cbn; [reflexivity|].
  destruct (isspace c); [exact IH | discriminate].
Qed.

Lemma lstrip_head s c t : lstrip s = c :: t -> isspace c = false.
Proof.
  induction s as [|c' s IH]; cbn; [discriminate|].
  destruct (isspace c') eqn:Hc; [exact IH|]. now intros [= <- _].
Qed.

Lemma forallb_rev {A} (p : A -> bool) l : forallb p (rev l) = forallb p l.
Proof.
  induction l as [|x l IH]; cbn; [reflexivity|].
  rewrite forallb_app, IH. cbn. rewrite andb_true_r. apply andb_comm.
Qed.

(** [strip] leaves nothing exactly of the strings made of white space. *)
Lemma strip_nil_iff s : strip s = [] <-> forallb isspace s = true.
Proof.
  split; [|apply strip_blank].
  unfold strip, rstrip. intros H.
  apply (f_equal (@rev N)) in H. rewrite rev_involutive in H. cbn in H.
  apply lstrip_nil_blank in H. rewrite forallb_rev in H.
  destruct (lstrip s) as [|c t] eqn:Hl; [now apply lstrip_nil_blank|].
  apply lstrip_head in Hl. cbn in H. now rewrite Hl in H.
Qed.

(** ** The chat route, further *)

(** A blank message is turned away before the session or the client is
    touched. *)
Lemma serve_chat_blank env app cookie w d s :
  assoc (py "message") d = Some (VStr s) ->
  forallb isspace s = true ->
  Web.serve env app (Web.PostChat (VDict d)) cookie w =
    (Web.Replied
       (Web.Json (VDict [(py "error", VStr (py "Message cannot be empty"))]) 400),
     cookie, w).
Proof.
  intros Hmsg Hblank. unfold_web. unfold_monad. cbn. rewrite Hmsg. cbn.
  rewrite (proj2 (strip_nil_iff s) Hblank). cbn.
  destruct cookie as [[[id|] [h|]]|]; reflexivity.
Qed.

(** X1. Clearing: POST /api/clear answers 200, sends nothing downstream and
    leaves a session with the same identifier and an empty transcript; the
    next accepted chat message from that browser is sent alone, whatever the
    session held before. *)
Theorem clear_then_chat env app cookie w :
  Web.serve env app Web.PostClear cookie w =
    (Web.Replied
       (Web.Json (VDict [(py "success", VBool true);
                         (py "message", VStr (py "Chat history cleared"))]) 200),
     Some {| Web.c_session_id := cookie ≫= Web.c_session_id;
             Web.c_chat_history := Some [] |},
     w) /\
  forall d s,
    assoc (py "message") d = Some (VStr s) ->
    strip s <> [] ->
    sent (snd (Web.serve env app (Web.PostChat (VDict d))
                 (Web.serve env app Web.PostClear cookie w).1.2 w)) =
    sent w ++ [chat_request (Web.vllm_client app) [user (strip s)] 200
                 default_temperature].
Proof.
  assert (Hclear :
    Web.serve env app Web.PostClear cookie w =
    (Web.Replied
       (Web.Json (VDict [(py "success", VBool true);
                         (py "message", VStr (py "Chat history cleared"))]) 200),
     Some {| Web.c_session_id := cookie ≫= Web.c_session_id;
             Web.c_chat_history := Some [] |},
     w)).
  { unfold_web. unfold_monad. destruct cookie as [[[id|] [h|]]|]; reflexivity. }
  split; [exact Hclear|].
  intros d s Hmsg Hs. rewrite Hclear. cbn [fst snd].
  now rewrite (serve_chat_sent _ _ _ _ _ _ Hmsg Hs).
Qed.

Lemma clear_then_chat_witness :
  sent (snd (Web.serve greeter stub_app
               (Web.PostChat (VDict [(py "message", VStr (py " Hi "))]))
               (Web.serve greeter stub_app Web.PostClear
                  (Some {| Web.c_session_id := Some (py "abc");
                           Web.c_chat_history :=
                             Some [user (py "old"); assistant VNone] |})
                  initial_world).1.2
               initial_world)) =
  sent initial_world ++
    [chat_request stub_client [user (strip (py " Hi "))] 200 default_temperature].
Proof.
  refine (proj2 (clear_then_chat greeter stub_app _ initial_world)
            [(py "message", VStr (py " Hi "))] (py " Hi ") eq_refl _).
  vm_compute. discriminate.
Defined.

(** X2. A successful turn: when the completion succeeds, the reply carries
    the content and the usage, and the session then holds the previous
    transcript followed by the stripped user message and the assistant's
    reply; its identifier is unchanged. *)
Theorem chat_success_persists env app cookie w d s content usage w' :
  assoc (py "message") d = Some (VStr s) ->
  strip s <> [] ->
  Web.chat_completion env (Web.vllm_client app)
    (Web.transcript_of cookie ++ [user (strip s)]) 200 default_temperature w
    = (Returns (Web.Success content usage), w') ->
  Web.serve env app (Web.PostChat (VDict d)) cookie w =
    (Web.Replied
       (Web.Json (VDict [(py "success", VBool true);
                         (py "response", content);
                         (py "usage", usage)]) 200),
     Some {| Web.c_session_id := cookie ≫= Web.c_session_id;
             Web.c_chat_history :=
               Some (Web.transcript_of cookie
                     ++ [user (strip s); assistant content]) |},
     w').
Proof.
  intros Hmsg Hs Hok. rewrite (serve_chat _ _ _ _ _ _ Hmsg Hs). cbn zeta.
  rewrite Hok. now rewrite <- app_assoc.
Qed.

Lemma chat_success_persists_witness :
  Web.serve greeter stub_app
    (Web.PostChat (VDict [(py "message", VStr (py "Hi"))]))
    (Some {| Web.c_session_id := Some (py "abc"); Web.c_chat_history := None |})
    initial_world =
    (Web.Replied
       (Web.Json (VDict [(py "success", VBool true);
                         (py "response", VStr (py "Hello!"));
                         (py "usage", VDict [(py "total_tokens", VInt 12)])]) 200),
     Some {| Web.c_session_id := Some (py "abc");
             Web.c_chat_history :=
               Some [user (py "Hi"); assistant (VStr (py "Hello!"))] |},
     log_request initial_world
       (chat_request stub_client [user (py "Hi")] 200 default_temperature)).
Proof.
  refine (chat_success_persists greeter stub_app _ initial_world
            [(py "message", VStr (py "Hi"))] (py "Hi") _ _ _ eq_refl _ eq_refl).
  vm_compute. discriminate.
Defined.

(** X3. A string message is rejected with status 400 exactly when it is made
    of white space only (or empty); every other string message leads to one
    downstream request, carrying the message without its surrounding white
    space. *)
Theorem chat_rejects_exactly_blank env app cookie w d s :
  assoc (py "message") d = Some (VStr s) ->
  (forallb isspace s = true <->
   exists body,
     (Web.serve env app (Web.PostChat (VDict d)) cookie w).1.1
     = Web.Replied (Web.Json body 400)) /\
  (forallb isspace s = false ->
   sent (snd (Web.serve env app (Web.PostChat (VDict d)) cookie w)) =
   sent w ++ [chat_request (Web.vllm_client app)
                (Web.transcript_of cookie ++ [user (strip s)]) 200
                default_temperature]).
Proof.
  intros Hmsg. split; [split|].
  - intros Hb. rewrite (serve_chat_blank env app cookie w d s Hmsg Hb). eauto.
  - intros [body Hbody].
    destruct (forallb isspace s) eqn:Hb; [reflexivity|]. exfalso.
    assert (Hs : strip s <> []).
    { intros Hnil. apply strip_nil_iff in Hnil. congruence. }
    rewrite (serve_chat _ _ _ _ _ _ Hmsg Hs) in Hbody. cbn zeta in Hbody.
    destruct (Web.chat_completion _ _ _ _ _ _) as [[[c u|err]|e] w'];
      cbn in Hbody; congruence.
  - intros Hb. apply serve_chat_sent; [exact Hmsg|].
    intros Hnil. apply strip_nil_iff in Hnil. congruence.
Qed.

Lemma chat_rejects_exactly_blank_witness :
  sent (snd (Web.serve unreachable stub_app
               (Web.PostChat (VDict [(py "message", VStr (py " Hi "))]))
               None initial_world)) =
  sent initial_world ++
    [chat_request stub_client (Web.transcript_of None ++ [user (strip (py " Hi "))])
       200 default_temperature].
Proof.
  exact (proj2 (chat_rejects_exactly_blank unreachable stub_app None initial_world
                  [(py "message", VStr (py " Hi "))] (py " Hi ") eq_refl) eq_refl).
Defined.

Lemma serve_chat_missing env app cookie w d :
  assoc (py "message") d = None ->
  Web.serve env app (Web.PostChat (VDict d)) cookie w =
    (Web.Replied
       (Web.Json (VDict [(py "error", VStr (py "Message cannot be empty"))]) 400),
     cookie, w).
Proof.
  intros Hmsg. unfold_web. unfold_monad. cbn. rewrite Hmsg. cbn.
  destruct cookie as [[[id|] [h|]]|]; reflexivity.
Qed.

Lemma serve_chat_not_string env app cookie w d v :
  assoc (py "message") d = Some v ->
  (forall s, v <> VStr s) ->
  Web.serve env app (Web.PostChat (VDict d)) cookie w =
    (Web.ServerError (no_attribute v (py "strip")), cookie, w).
Proof.
  intros Hmsg Hv. unfold_web. unfold_monad. cbn. rewrite Hmsg. cbn.
  destruct v; try (destruct cookie as [[[id|] [h|]]|]; reflexivity).
  now destruct (Hv s).
Qed.

Lemma serve_chat_not_dict env app cookie w data :
  (forall d, data <> VDict d) ->
  Web.serve env app (Web.PostChat data) cookie w =
    (Web.ServerError (no_attribute data (py "get")), cookie, w).
Proof.
  intros Hd. unfold_web. unfold_monad.
  destruct data; try (destruct cookie as [[[id|] [h|]]|]; reflexivity).
  now destruct (Hd d).
Qed.

(** X4. Bodies the chat route does not expect. A body without ['message']
    is answered like an empty message, with status 400. A ['message'] that
    is not a string, or a body that is not an object, makes the view raise
    [AttributeError]: the server answers 500. In all three cases nothing is
    sent downstream and the session is left as it was. *)
Theorem chat_unexpected_body env app cookie w :
  (forall d, assoc (py "message") d = None ->
     Web.serve env app (Web.PostChat (VDict d)) cookie w =
       (Web.Replied
          (Web.Json (VDict [(py "error", VStr (py "Message cannot be empty"))])
             400),
        cookie, w)) /\
  (forall d v, assoc (py "message") d = Some v -> (forall s, v <> VStr s) ->
     exists e, cls e = AttributeError /\
       Web.serve env app (Web.PostChat (VDict d)) cookie w =
         (Web.ServerError e, cookie, w)) /\
  (forall data, (forall d, data <> VDict d) ->
     exists e, cls e = AttributeError /\
       Web.serve env app (Web.PostChat data) cookie w =
         (Web.ServerError e, cookie, w)).
Proof.
  split; [|split].
  - intros d. apply serve_chat_missing.
  - intros d v Hmsg Hv. exists (no_attribute v (py "strip")).
    split; [reflexivity | apply serve_chat_not_string; assumption].
  - intros data Hd. exists (no_attribute data (py "get")).
    split; [reflexivity | apply serve_chat_not_dict; assumption].
Qed.

Lemma chat_unexpected_body_witness :
  (exists e, cls e = AttributeError /\
     Web.serve greeter stub_app
       (Web.PostChat (VDict [(py "message", VInt 5)])) None initial_world =
       (Web.ServerError e, None, initial_world)) /\
  (exists e, cls e = AttributeError /\
     Web.serve greeter stub_app (Web.PostChat VNone) None initial_world =
       (Web.ServerError e, None, initial_world)).
Proof.
  destruct (chat_unexpected_body greeter stub_app None initial_world)
    as (_ & Hfield & Hbody).
  split.
  - apply (Hfield [(py "message", VInt 5)] (VInt 5) eq_refl). discriminate.
  - apply (Hbody VNone). discriminate.
Defined.

(** ** The other routes *)

(** The two cases of the page route. *)
Lemma index_session_cases env app cookie w :
  (forall id, cookie ≫= Web.c_session_id = Some id ->
     Web.serve env app Web.GetIndex cookie w =
       (Web.Replied (Web.Html (py "index.html")), cookie, w)) /\
  (cookie ≫= Web.c_session_id = None ->
     Web.transcript_of (Web.serve env app Web.GetIndex cookie w).1.2 = []).
Proof.
  split.
  - intros id Hid. unfold_web. unfold Web.in_world, draw_uuid4. unfold_monad.
    destruct cookie as [[[id'|] [h|]]|]; try discriminate; destruct w; reflexivity.
  - intros Hid. unfold_web. unfold Web.in_world, draw_uuid4. unfold_monad.
    destruct cookie as [[[id'|] [h|]]|]; try discriminate; reflexivity.
Qed.

(** X5. The page route. A session that has an identifier is left exactly as
    it is. A session without one (no cookie, or a cookie written by the API
    routes alone) gets a new identifier and an empty transcript: a
    transcript it held is dropped. Nothing is sent downstream. *)
Theorem index_session env app cookie w :
  (forall id, cookie ≫= Web.c_session_id = Some id ->
     Web.serve env app Web.GetIndex cookie w =
       (Web.Replied (Web.Html (py "index.html")), cookie, w)) /\
  (cookie ≫= Web.c_session_id = None ->
     Web.serve env app Web.GetIndex cookie w =
       (Web.Replied (Web.Html (py "index.html")),
        Some {| Web.c_session_id := Some (uuid4 env (uuids w));
                Web.c_chat_history := Some [] |},
        {| sent := sent w; spawned := spawned w; printed := printed w;
           uuids := S (uuids w) |})).
Proof.
  split.
  - intros id Hid. unfold_web. unfold Web.in_world, draw_uuid4. unfold_monad.
    destruct cookie as [[[id'|] [h|]]|]; try discriminate; destruct w; reflexivity.
  - intros Hid. unfold_web. unfold Web.in_world, draw_uuid4. unfold_monad.
    destruct cookie as [[[id'|] [h|]]|]; try discriminate; reflexivity.
Qed.

Lemma index_session_witness :
  Web.serve greeter stub_app Web.GetIndex
    (Some {| Web.c_session_id := None;
             Web.c_chat_history := Some [user (py "Hi"); assistant VNone] |})
    initial_world =
    (Web.Replied (Web.Html (py "index.html")),
     Some {| Web.c_session_id := Some (uuid4 greeter 0%nat);
             Web.c_chat_history := Some [] |},
     {| sent := []; spawned := []; printed := []; uuids := 1 |}).
Proof.
  exact (proj2 (index_session greeter stub_app
                  (Some {| Web.c_session_id := None;
                           Web.c_chat_history :=
                             Some [user (py "Hi"); assistant VNone] |})
                  initial_world) eq_refl).
Defined.

(** The model route never writes the session. *)
Lemma serve_models env app cookie w :
  Web.serve env app Web.GetModels cookie w =
  match Web.get_models env (Web.vllm_client app) w with
  | (Returns models, w') => (Web.Replied (Web.Json models 200), cookie, w')
  | (Raises e, w') => (Web.ServerError e, cookie, w')
  end.
Proof.
  unfold Web.serve, Web.view, Web.api_models, Web.in_world, Web.open_session,
    Web.save_session, Web.session_empty.
  unfold mbind, M_bind, mret, M_ret.
  destruct cookie as [[[id|] [h|]]|]; cbn;
    destruct (Web.get_models _ _ _) as [[v|e] w']; reflexivity.
Qed.

(** X6. The model route reports a failed listing with status 200: when the
    request for the models fails with a [RequestException] or is answered
    with an error status, the browser receives status 200 and the body
    [{"error": diagnostic}]; the session is untouched. *)
Theorem models_route_reports_failure_with_200 env app cookie w :
  let req := models_request (Web.vllm_client app) 10 in
  (forall e, endpoint env (sent w) req = Raises e ->
     is_RequestException (cls e) = true ->
     Web.serve env app Web.GetModels cookie w =
       (Web.Replied (Web.Json (VDict [(py "error", VStr (msg e))]) 200),
        cookie, log_request w req)) /\
  (forall r, endpoint env (sent w) req = Returns r ->
     400 <= status_code r < 600 ->
     exists diagnostic,
       Web.serve env app Web.GetModels cookie w =
         (Web.Replied (Web.Json (VDict [(py "error", VStr diagnostic)]) 200),
          cookie, log_request w req)).
Proof.
  cbn zeta. split.
  - intros e He Hcls. rewrite serve_models, web_get_models_run. cbn zeta.
    rewrite He. cbn. now rewrite Hcls.
  - intros r Hr Hs. destruct (raise_for_status_error r Hs) as (e & He & Hcls).
    exists (msg e). rewrite serve_models, web_get_models_run. cbn zeta.
    rewrite Hr. unfold decoded. cbn. rewrite He. cbn. now rewrite Hcls.
Qed.

Lemma models_route_reports_failure_with_200_witness :
  Web.serve unreachable stub_app Web.GetModels None initial_world =
    (Web.Replied
       (Web.Json (VDict [(py "error", VStr (py "Connection refused"))]) 200),
     None, log_request initial_world (models_request stub_client 10)).
Proof.
  exact (proj1 (models_route_reports_failure_with_200 unreachable stub_app None
                  initial_world)
           {| cls := ConnectionError; msg := py "Connection refused" |}
           eq_refl eq_refl).
Defined.

Lemma serve_is_serve_view env app r cookie w :
  Web.serve env app r cookie w = serve_view (Web.view env app r) cookie w.
Proof. reflexivity. Qed.

(** X7. The health route does not fail: when transport errors are
    [RequestException]s, GET /api/health answers 200 with
    [{"healthy": b, "timestamp": ...}], where [b] tells whether the service
    answered the liveness request with status 200; it issues that one
    request and leaves the session as it was. *)
Theorem health_route_always_answers env app timestamp cookie w :
  transport_raises_RequestException env ->
  let req := health_request (Web.vllm_client app) 5 in
  serve_view (api_health env app timestamp) cookie w =
    (Web.Replied
       (Web.Json
          (VDict [(py "healthy",
                   VBool match endpoint env (sent w) req with
                         | Returns r => status_code r =? 200
                         | Raises _ => false
                         end);
                  (py "timestamp", VStr timestamp)]) 200),
     cookie, log_request w req).
Proof.
  intros Hreq. cbn zeta.
  unfold serve_view, api_health, Web.in_world, Web.open_session,
    Web.save_session, Web.session_empty.
  unfold mbind, M_bind, mret, M_ret.
  assert (Hrun : forall w0,
    w0 = w ->
    Web.health_check env (Web.vllm_client app) w0 =
    (Returns match endpoint env (sent w)
                     (health_request (Web.vllm_client app) 5) with
             | Returns r => status_code r =? 200
             | Raises _ => false
             end,
     log_request w (health_request (Web.vllm_client app) 5))).
  { intros w0 ->. rewrite web_health_check_run. cbn zeta.
    destruct (endpoint env _ _) as [r|e] eqn:He; cbn; [reflexivity|].
    now rewrite (Hreq _ _ _ He). }
  destruct cookie as [[[id|] [h|]]|]; cbn; rewrite (Hrun _ eq_refl); reflexivity.
Qed.

Lemma health_route_always_answers_witness :
  serve_view (api_health unreachable stub_app (py "2024-01-01T00:00:00")) None
    initial_world =
    (Web.Replied
       (Web.Json
          (VDict [(py "healthy", VBool false);
                  (py "timestamp", VStr (py "2024-01-01T00:00:00"))]) 200),
     None, log_request initial_world (health_request stub_client 5)).
Proof.
  apply (health_route_always_answers unreachable stub_app
           (py "2024-01-01T00:00:00") None initial_world).
  intros history r e [= <-]. reflexivity.
Defined.

(** ** The web client, further *)

(** X8. A well-formed answer: whenever the status is outside 400-599 and
    the decoded body is an object with a content under
    [["choices"][0]["message"]["content"]], the web client reports success
    with that content; the usage is the body's ["usage"], or the empty
    object when the body has none. *)
Theorem web_chat_completion_success env self messages mt temp w r d content :
  endpoint env (sent w) (chat_request self messages mt temp) = Returns r ->
  ~ 400 <= status_code r < 600 ->
  json r = Returns (VDict d) ->
  chat_content (VDict d) = Returns content ->
  Web.chat_completion env self messages mt temp w =
    (Returns (Web.Success content (default (VDict []) (assoc (py "usage") d))),
     log_request w (chat_request self messages mt temp)).
Proof.
  intros Hr Hs Hj Hc. rewrite web_chat_completion_run. cbn zeta.
  rewrite Hr. unfold decoded. cbn -[web_chat_result].
  rewrite (raise_for_status_pass r Hs). cbn -[web_chat_result]. rewrite Hj.
  cbn -[web_chat_result chat_content]. unfold web_chat_result.
  unfold mbind at 1, outcome_bind at 1. rewrite Hc. reflexivity.
Qed.

Lemma web_chat_completion_success_witness :
  Web.chat_completion without_usage stub_client [user (py "Hi")] 200
    default_temperature initial_world =
    (Returns (Web.Success (VStr (py "Hello!")) (VDict [])),
     log_request initial_world
       (chat_request stub_client [user (py "Hi")] 200 default_temperature)).
Proof.
  refine (web_chat_completion_success without_usage stub_client
            [user (py "Hi")] 200 default_temperature initial_world _ _
            (VStr (py "Hello!")) eq_refl _ eq_refl eq_refl).
  cbn. lia.
Defined.

(** ** An invariant of the web transcript *)

Lemma whole_turns_app l u a :
  whole_turns l = true ->
  role u = py "user" -> role a = py "assistant" ->
  whole_turns (l ++ [u; a]) = true.
Proof.
  intros Hl Hu Ha.
  assert (Hboth : forall l,
    (whole_turns l = true -> whole_turns (l ++ [u; a]) = true) /\
    (forall x, whole_turns (x :: l) = true ->
               whole_turns ((x :: l) ++ [u; a]) = true)).
  { clear l Hl. induction l as [|y l [IH1 IH2]].
    - split.
      + intros _. cbn. unfold str_eqb. rewrite Hu, Ha.
        now rewrite !bool_decide_eq_true_2.
      + intros x. cbn. discriminate.
    - split.
      + apply IH2.
      + intros x. cbn [whole_turns app].
        intros [[Hx Hy]%andb_true_iff Hrest]%andb_true_iff.
        rewrite Hx, Hy. cbn. now apply IH1. }
  now apply Hboth.
Qed.

(** What a chat request can do to the session, for every body. *)
Lemma serve_chat_cookie env app data cookie w :
  (Web.serve env app (Web.PostChat data) cookie w).1.2 = cookie \/
  exists s content,
    Web.transcript_of (Web.serve env app (Web.PostChat data) cookie w).1.2 =
    Web.transcript_of cookie ++ [user s; assistant content].
Proof.
  destruct data as [| | | | |l|d];
    try (left; rewrite serve_chat_not_dict by discriminate; reflexivity).
  destruct (assoc (py "message") d) as [v|] eqn:Hmsg;
    [|left; now rewrite serve_chat_missing].
  destruct v as [| | | |s| |];
    try (left; rewrite (serve_chat_not_string _ _ _ _ _ _ Hmsg) by discriminate;
         reflexivity).
  destruct (forallb isspace s) eqn:Hb.
  - left. now rewrite (serve_chat_blank _ _ _ _ _ _ Hmsg Hb).
  - assert (Hs : strip s <> []).
    { intros Hnil. apply strip_nil_iff in Hnil. congruence. }
    rewrite (serve_chat _ _ _ _ _ _ Hmsg Hs). cbn zeta.
    destruct (Web.chat_completion _ _ _ _ _ _) as [[[c u|err]|e] w'];
      [right | left; reflexivity | left; reflexivity].
    exists (strip s), c. cbn. now rewrite <- app_assoc.
Qed.

(** X9. The transcript a web session holds is always made of whole turns, a
    user message followed by the assistant's reply: no request on any route,
    whatever its body and whatever the service answers, leaves a user
    message without reply in the session. *)
Theorem web_transcript_whole_turns env app r cookie w :
  whole_turns (Web.transcript_of cookie) = true ->
  whole_turns (Web.transcript_of (Web.serve env app r cookie w).1.2) = true.
Proof.
  intros Hinv. destruct r as [| |data|].
  - destruct (cookie ≫= Web.c_session_id) as [id|] eqn:Hid.
    + now rewrite (proj1 (index_session_cases env app cookie w) id Hid).
    + now rewrite (proj2 (index_session_cases env app cookie w) Hid).
  - rewrite serve_models.
    now destruct (Web.get_models _ _ _) as [[v|e] w'].
  - destruct (serve_chat_cookie env app data cookie w) as [-> | (s & c & ->)];
      [exact Hinv|].
    now apply whole_turns_app.
  - unfold_web. unfold_monad. destruct cookie as [[[id|] [h|]]|]; reflexivity.
Qed.

Lemma web_transcript_whole_turns_witness :
  whole_turns
    (Web.transcript_of
       (Web.serve empty_object stub_app
          (Web.PostChat (VDict [(py "message", VStr (py "again"))]))
          (Some {| Web.c_session_id := None;
                   Web.c_chat_history :=
                     Some [user (py "Hi"); assistant (VStr (py "Hello!"))] |})
          initial_world).1.2) = true.
Proof.
  exact (web_transcript_whole_turns empty_object stub_app
           (Web.PostChat (VDict [(py "message", VStr (py "again"))]))
           (Some {| Web.c_session_id := None;
                    Web.c_chat_history :=
                      Some [user (py "Hi"); assistant (VStr (py "Hello!"))] |})
           initial_world eq_refl).
Defined.

(** ** The interactive loop, further *)

Lemma is_message_false env line :
  is_message env line = false ->
  existsb (str_eqb (lower (unicode_lower env) (strip line)))
    [py "quit"; py "exit"] = true \/
  (existsb (str_eqb (lower (unicode_lower env) (strip line)))
     [py "quit"; py "exit"] = false /\
   str_eqb (lower (unicode_lower env) (strip line)) (py "clear") = true) \/
  (existsb (str_eqb (lower (unicode_lower env) (strip line)))
     [py "quit"; py "exit"] = false /\
   str_eqb (lower (unicode_lower env) (strip line)) (py "clear") = false /\
   nonempty (strip line) = false).
Proof.
  unfold is_message.
  destruct (existsb _ _); [now left|].
  destruct (str_eqb _ (py "clear")); [right; left; now split|].
  cbn. intros ->. right. right. now repeat split.
Qed.

Lemma is_message_true env line :
  is_message env line = true ->
  existsb (str_eqb (lower (unicode_lower env) (strip line)))
    [py "quit"; py "exit"] = false /\
  str_eqb (lower (unicode_lower env) (strip line)) (py "clear") = false /\
  nonempty (strip line) = true.
Proof.
  unfold is_message.
  destruct (existsb _ _); [discriminate|].
  destruct (str_eqb _ (py "clear")); [discriminate|].
  cbn. now intros ->.
Qed.

(** A blank line is skipped. *)
Lemma loop_body_blank env client line f :
  existsb (str_eqb (lower (unicode_lower env) (strip line)))
    [py "quit"; py "exit"] = false ->
  str_eqb (lower (unicode_lower env) (strip line)) (py "clear") = false ->
  nonempty (strip line) = false ->
  Cli.loop_body env client (Cli.Typed line) f =
  (Returns Cli.Continue,
   {| Cli.world := log_output (Cli.world f) (OutText (py "You: "));
      Cli.messages := Cli.messages f |}).
Proof.
  intros Hq Hc He. unfold_cli. unfold_monad. cbn -[existsb str_eqb lower strip].
  rewrite Hq, Hc, He. destruct f. reflexivity.
Qed.

(** Ctrl-C at the prompt ends the loop. *)
Lemma loop_body_interrupt env client f :
  Cli.loop_body env client Cli.Interrupt f =
  (Returns Cli.Break,
   {| Cli.world := log_output (log_output (Cli.world f) (OutText (py "You: ")))
                     (OutLine (10%N :: Cli.goodbye));
      Cli.messages := Cli.messages f |}).
Proof. reflexivity. Qed.

(** The turn of a message line, by what the completion does. *)
Lemma loop_body_turn env client line f :
  is_message env line = true ->
  let transcript := Cli.messages f ++ [user (strip line)] in
  let w0 := log_output (log_output (Cli.world f) (OutText (py "You: ")))
              (OutText (py "AI: ")) in
  Cli.loop_body env client (Cli.Typed line) f =
  match Cli.chat_completion env client transcript 200 default_temperature w0 with
  | (Returns v, w') =>
      if truthy v then
        (Returns Cli.Continue,
         {| Cli.world := log_output (log_output w' (OutValue v)) (OutLine []);
            Cli.messages := transcript ++ [assistant v] |})
      else
        (Returns Cli.Continue,
         {| Cli.world :=
              log_output
                (log_output w'
                   (OutLine (py "Sorry, I couldn't process your request.")))
                (OutLine []);
            Cli.messages := transcript |})
  | (Raises e, w') =>
      if is_KeyboardInterrupt (cls e) then
        (Returns Cli.Break,
         {| Cli.world := log_output w' (OutLine (10%N :: Cli.goodbye));
            Cli.messages := transcript |})
      else if is_Exception (cls e) then
        (Returns Cli.Continue,
         {| Cli.world := log_output w' (OutLine (py "Error: " ++ msg e));
            Cli.messages := transcript |})
      else (Raises e, {| Cli.world := w'; Cli.messages := transcript |})
  end.
Proof.
  intros (Hq & Hc & Hne)%is_message_true. cbn zeta.
  unfold_cli. unfold_monad. cbn -[existsb str_eqb lower strip].
  rewrite Hq, Hc, Hne. cbn -[existsb str_eqb lower strip]. unfold user.
  destruct (Cli.chat_completion _ _ _ _ _ _) as [[v|e] w'];
    cbn -[existsb str_eqb lower strip].
  - destruct (truthy v); reflexivity.
  - destruct (is_KeyboardInterrupt (cls e)); cbn; [reflexivity|].
    destruct (is_Exception (cls e)); reflexivity.
Qed.

Lemma quit_is_not_clear x :
  existsb (str_eqb x) [py "quit"; py "exit"] = true ->
  str_eqb x (py "clear") = false.
Proof.
  cbn [existsb]. rewrite orb_false_r. unfold str_eqb.
  intros [Hq | He]%orb_true_iff.
  - apply bool_decide_eq_true in Hq as ->. reflexivity.
  - apply bool_decide_eq_true in He as ->. reflexivity.
Qed.

(** X10. The loop sends a request only for a message line. A line that
    reads quit, exit or clear, a blank line and Ctrl-C at the prompt are
    handled without raising and without any request. The transcript is
    emptied by a line that reads clear and is kept as it is by all the
    others; the loop is left by quit, exit and Ctrl-C and goes on after
    clear and after a blank line. *)
Theorem loop_sends_only_messages env client i f :
  message_input env i = false ->
  exists c f',
    Cli.loop_body env client i f = (Returns c, f') /\
    sent (Cli.world f') = sent (Cli.world f) /\
    Cli.messages f' = (if clears env i then [] else Cli.messages f) /\
    c = (if leaving env i then Cli.Break else Cli.Continue).
Proof.
  destruct i as [line|]; cbn [message_input clears leaving].
  - intros [Hq | [[Hq Hc] | (Hq & Hc & He)]]%is_message_false.
    + rewrite (loop_body_quit _ _ _ _ Hq), Hq, (quit_is_not_clear _ Hq).
      eexists _, _. repeat split.
    + rewrite Hq, Hc. apply bool_decide_eq_true in Hc.
      rewrite (loop_body_clear _ _ _ _ Hc). eexists _, _. repeat split.
    + rewrite (loop_body_blank _ _ _ _ Hq Hc He), Hq, Hc.
      eexists _, _. repeat split.
  - intros _. rewrite loop_body_interrupt. eexists _, _. repeat split.
Qed.

Lemma loop_sends_only_messages_witness :
  exists c f',
    Cli.loop_body greeter stub_client (Cli.Typed (py "  EXIT "))
      {| Cli.world := initial_world; Cli.messages := [user (py "Hi")] |}
    = (Returns c, f') /\
    sent (Cli.world f') = [] /\
    Cli.messages f' = [user (py "Hi")] /\
    c = Cli.Break.
Proof.
  exact (loop_sends_only_messages greeter stub_client (Cli.Typed (py "  EXIT "))
           {| Cli.world := initial_world; Cli.messages := [user (py "Hi")] |}
           eq_refl).
Defined.

(** A blank line keeps the transcript; a line reading clear empties it. *)
Example blank_line_keeps_transcript :
  Cli.messages
    (snd (Cli.loop_body greeter stub_client (Cli.Typed (py "   "))
            {| Cli.world := initial_world; Cli.messages := [user (py "Hi")] |}))
  = [user (py "Hi")] /\
  Cli.messages
    (snd (Cli.loop_body greeter stub_client (Cli.Typed (py " Clear "))
            {| Cli.world := initial_world; Cli.messages := [user (py "Hi")] |}))
  = [].
Proof. split; reflexivity. Qed.



(** What one turn of the loop does to the log of requests and to the
    transcript, for every input. *)
Lemma loop_body_effect env client i f :
  let f' := snd (Cli.loop_body env client i f) in
  (if message_input env i
   then exists transcript,
          sent (Cli.world f') =
          sent (Cli.world f)
          ++ [chat_request client transcript 200 default_temperature]
   else sent (Cli.world f') = sent (Cli.world f)) /\
  (Cli.messages f' = Cli.messages f \/ Cli.messages f' = [] \/
   exists s, s <> [] /\
     (Cli.messages f' = Cli.messages f ++ [user s] \/
      exists v, truthy v = true /\
        Cli.messages f' = Cli.messages f ++ [user s; assistant v])).
Proof.
  cbn zeta. destruct (message_input env i) eqn:Hm.
  - destruct i as [line|]; [|discriminate]. cbn in Hm.
    assert (Hs : strip line <> [])
      by (apply nonempty_true; now apply is_message_true in Hm).
    rewrite (loop_body_turn _ _ _ _ Hm). cbn zeta.
    match goal with
    | |- context [Cli.chat_completion env client ?t ?mt ?tp ?w0] =>
        pose proof (sent_cli_chat_completion env client t mt tp w0) as Hsent
    end.
    destruct (Cli.chat_completion _ _ _ _ _ _) as [[v|e] w']; cbn in Hsent.
    + destruct (truthy v) eqn:Hv; cbn; (split; [eauto|]); right; right;
        exists (strip line); (split; [exact Hs|]).
      * right. exists v. split; [exact Hv|]. now rewrite <- app_assoc.
      * now left.
    + destruct (is_KeyboardInterrupt (cls e)); [|destruct (is_Exception (cls e))];
        cbn; (split; [eauto|]); right; right; exists (strip line);
        (split; [exact Hs|]); now left.
  - destruct i as [line|]; cbn [message_input] in Hm.
    + apply is_message_false in Hm as [Hq | [[Hq Hc] | (Hq & Hc & He)]].
      * rewrite (loop_body_quit _ _ _ _ Hq). cbn. split; [reflexivity | now left].
      * apply bool_decide_eq_true in Hc. rewrite (loop_body_clear _ _ _ _ Hc).
        cbn. split; [reflexivity | right; now left].
      * rewrite (loop_body_blank _ _ _ _ Hq Hc He). cbn.
        split; [reflexivity | now left].
    + rewrite loop_body_interrupt. cbn. split; [reflexivity | now left].
Qed.

(** X12. Over any script the loop sends at most one request per message
    line and none for the other inputs; the requests are chat completions
    through the client, and what was sent before the loop stays first in
    the log. *)
Theorem loop_requests_bounded env client inputs f :
  exists extra,
    sent (Cli.world (snd (Cli.chat_loop env client inputs f))) =
      sent (Cli.world f) ++ extra /\
    (length extra <= length (List.filter (message_input env) inputs))%nat /\
    Forall (fun r => exists transcript,
              r = chat_request client transcript 200 default_temperature) extra.
Proof.
  revert f. induction inputs as [|i inputs IH]; intros f.
  - exists []. cbn. rewrite app_nil_r. repeat split; constructor.
  - cbn [Cli.chat_loop]. unfold mbind at 1, M_bind at 1.
    pose proof (loop_body_effect env client i f) as [Hsent _]. cbn zeta in Hsent.
    destruct (Cli.loop_body env client i f) as [[[|]|e] f1]; cbn [snd] in Hsent.
    + cbn [List.filter]. destruct (message_input env i).
      * destruct Hsent as [t Hsent]. eexists [_]. cbn.
        split; [exact Hsent|]. split; [lia|]. repeat constructor. eauto.
      * exists []. cbn. rewrite app_nil_r.
        split; [exact Hsent|]. split; [lia|]. constructor.
    + destruct (IH f1) as (extra & Hrest & Hlen & Hall).
      cbn [List.filter]. destruct (message_input env i).
      * destruct Hsent as [t Hsent].
        exists (chat_request client t 200 default_temperature :: extra).
        rewrite Hrest, Hsent, <- app_assoc. cbn.
        split; [reflexivity|]. split; [lia|]. constructor; eauto.
      * exists extra. rewrite Hrest, Hsent. auto.
    + cbn [List.filter]. destruct (message_input env i).
      * destruct Hsent as [t Hsent]. eexists [_]. cbn.
        split; [exact Hsent|]. split; [lia|]. repeat constructor. eauto.
      * exists []. cbn. rewrite app_nil_r.
        split; [exact Hsent|]. split; [lia|]. constructor.
Qed.

Lemma well_formed_user s : s <> [] -> well_formed (user s) = true.
Proof.
  intros Hs. unfold well_formed, user. cbn.
  now rewrite (proj2 (nonempty_true s) Hs).
Qed.

Lemma well_formed_assistant v : truthy v = true -> well_formed (assistant v) = true.
Proof. intros Hv. unfold well_formed, assistant. cbn. now rewrite Hv. Qed.

(** X13. The transcript of the loop stays well formed over any script and
    whatever the service does: every message in it is a user message with a
    non-empty string or an assistant message with a content that counts as
    true (no empty or missing reply is ever recorded). *)
Theorem loop_transcript_well_formed env client inputs f :
  forallb well_formed (Cli.messages f) = true ->
  forallb well_formed
    (Cli.messages (snd (Cli.chat_loop env client inputs f))) = true.
Proof.
  revert f. induction inputs as [|i inputs IH]; intros f Hwf; [exact Hwf|].
  cbn [Cli.chat_loop]. unfold mbind at 1, M_bind at 1.
  pose proof (loop_body_effect env client i f) as [_ Hmsgs]. cbn zeta in Hmsgs.
  assert (Hwf1 : forallb well_formed
                   (Cli.messages (snd (Cli.loop_body env client i f))) = true).
  { destruct Hmsgs as [-> | [-> | (s & Hs & [-> | (v & Hv & ->)])]];
      try assumption; try reflexivity.
    - rewrite forallb_app, Hwf. cbn. now rewrite (well_formed_user s Hs).
    - rewrite forallb_app, Hwf. cbn.
      now rewrite (well_formed_user s Hs), (well_formed_assistant v Hv). }
  destruct (Cli.loop_body env client i f) as [[[|]|e] f1]; cbn [snd] in *;
    [exact Hwf1 | now apply IH | exact Hwf1].
Qed.

Lemma loop_transcript_well_formed_witness :
  forallb well_formed
    (Cli.messages
       (snd (Cli.chat_loop empty_object stub_client
               [Cli.Typed (py "hello"); Cli.Typed []; Cli.Typed (py "again")]
               {| Cli.world := initial_world;
                  Cli.messages := [user (py "Hi"); assistant (VInt 3)] |})))
  = true.
Proof.
  exact (loop_transcript_well_formed empty_object stub_client
           [Cli.Typed (py "hello"); Cli.Typed []; Cli.Typed (py "again")]
           {| Cli.world := initial_world;
              Cli.messages := [user (py "Hi"); assistant (VInt 3)] |} eq_refl).
Defined.

(** X14. Input that follows the end of the loop is not read. The run over a
    script followed by further input is the run over the script if that run
    left the loop or raised; if the script ran out first, the run goes on
    with the further input from the state it had reached. *)
Theorem loop_ignores_input_after_leaving env client script further f :
  Cli.chat_loop env client (script ++ further) f =
  match Cli.chat_loop env client script f with
  | (Returns Cli.SpinsOnEOF, f') => Cli.chat_loop env client further f'
  | ended => ended
  end.
Proof.
  revert f. induction script as [|i script IH]; intros f; [reflexivity|].
  change ((i :: script) ++ further) with (i :: (script ++ further)).
  cbn [Cli.chat_loop]. unfold mbind, M_bind.
  destruct (Cli.loop_body env client i f) as [[[|]|e] f1]; [reflexivity| |reflexivity].
  apply IH.
Qed.

(** ** The scripted demonstration *)

Section DemoProperties.

Variable format_value : value -> str.





Lemma bind_print {B} o (k : unit -> M World B) w :
  (print o ≫= k) w = k tt (log_output w o).
Proof. reflexivity. Qed.

Lemma bind_run {A B} (m : M World A) (k : A -> M World B) w :
  (m ≫= k) w =
  match m w with
  | (Returns a, w') => k a w'
  | (Raises e, w') => (Raises e, w')
  end.
Proof. reflexivity. Qed.

Lemma sent_cli_health_check env self w :
  sent (snd (Cli.health_check env self w)) = sent w ++ [health_request self 10].
Proof. rewrite cli_health_check_run. now apply sent_guarded. Qed.

Lemma sent_cli_get_models env self w :
  sent (snd (Cli.get_models env self w)) = sent w ++ [models_request self 10].
Proof. rewrite cli_get_models_run. now apply sent_guarded. Qed.

Lemma sent_cli_completion env self prompt mt temp w :
  sent (snd (Cli.completion env self prompt mt temp w)) =
  sent w ++ [prompt_request self prompt mt temp].
Proof. rewrite cli_completion_run. now apply sent_guarded. Qed.

Lemma show_response_run response w :
  exists w', show_response format_value response w = (Returns tt, w') /\
             sent w' = sent w.
Proof.
  unfold show_response. destruct (truthy response); eexists; split; reflexivity.
Qed.

(** The listing sends nothing, whatever the entries are. *)
Lemma show_models_sent models w :
  sent (snd (show_models format_value models w)) = sent w.
Proof.
  revert w. induction models as [|model models IH]; intros w; [reflexivity|].
  cbn [show_models]. rewrite bind_run. unfold lift_outcome at 1.
  destruct (getitem_key model (py "id")) as [id|e]; [|reflexivity].
  rewrite bind_print, bind_run. unfold lift_outcome at 1.
  destruct (dict_get model _ _) as [len|e]; [|reflexivity].
  rewrite bind_print. now rewrite IH.
Qed.

(** X16. The demonstration sends its requests in a fixed order and nothing
    else: the requests it issues are the first [k] of health check, model
    listing, chat completion and legacy completion, for some [k] from 1 to
    4; when it returns normally it has sent either the health check alone
    (the service did not answer it with 200) or all four. *)
Theorem demo_requests_in_order env w :
  let client := {| base_url := resolve_in_order None (env_source env)
                                 (discovery_source env);
                   model := model_name |} in
  let run := demo_basic_usage format_value env w in
  exists k, (1 <= k <= 4)%nat /\
    sent (snd run) = sent w ++ take k (demo_requests client) /\
    (fst run = Returns tt -> k = 1%nat \/ k = 4%nat).
Proof.
  cbn zeta.
  set (client := {| base_url := resolve_in_order None (env_source env)
                                  (discovery_source env);
                    model := model_name |}).
  enough (H : exists k, (1 <= k <= 4)%nat /\
            let '(o, w') := demo_basic_usage format_value env w in
            sent w' = sent w ++ take k (demo_requests client) /\
            (o = Returns tt -> k = 1%nat \/ k = 4%nat)).
  { destruct H as (k & Hk & H). exists k.
    destruct (demo_basic_usage format_value env w). tauto. }
  unfold demo_basic_usage.
  rewrite !bind_print, bind_run.
  match goal with
  | |- context [Cli.__init__ env None ?w0] =>
      pose proof (cli_init_resolves env None w0) as Hc;
      pose proof (cli_init_sent env None w0) as Hs0
  end.
  fold client in Hc.
  destruct (Cli.__init__ env None _) as [r w1]. cbn [fst snd] in Hc, Hs0.
  subst r. cbn [sent log_output] in Hs0.
  cbv beta iota. rewrite bind_print, bind_run.
  match goal with
  | |- context [Cli.health_check env client ?w0] =>
      pose proof (sent_cli_health_check env client w0) as Hs1
  end.
  cbn [sent log_output] in Hs1. rewrite Hs0 in Hs1.
  destruct (Cli.health_check env client _) as [[[|]|e] w2]; cbn [snd] in Hs1.
  - (* healthy *)
    cbv beta iota. rewrite !bind_print, bind_run.
    match goal with
    | |- context [Cli.get_models env client ?w0] =>
        pose proof (sent_cli_get_models env client w0) as Hs2
    end.
    cbn [sent log_output] in Hs2. rewrite Hs1, <- app_assoc in Hs2.
    destruct (Cli.get_models env client _) as [[models|e] w3]; cbn [snd] in Hs2;
      [|exists 2%nat; cbn; split; [lia|]; split; [exact Hs2 | discriminate]].
    cbv beta iota. rewrite bind_run. unfold lift_outcome at 1.
    destruct (iterate models) as [elements|e];
      [|exists 2%nat; cbn; split; [lia|]; split; [exact Hs2 | discriminate]].
    cbv beta iota. rewrite bind_run.
    pose proof (show_models_sent elements w3) as Hs3. rewrite Hs2 in Hs3.
    destruct (show_models format_value elements w3) as [[[]|e] w4];
      cbn [snd] in Hs3;
      [|exists 2%nat; cbn; split; [lia|]; split; [exact Hs3 | discriminate]].
    cbv beta iota. rewrite !bind_print, bind_run.
    match goal with
    | |- context [Cli.chat_completion env client ?t ?mt ?tp ?w0] =>
        pose proof (sent_cli_chat_completion env client t mt tp w0) as Hs4
    end.
    cbn [sent log_output] in Hs4. rewrite Hs3, <- app_assoc in Hs4.
    destruct (Cli.chat_completion env client _ _ _ _) as [[response|e] w5];
      cbn [snd] in Hs4;
      [|exists 3%nat; cbn; split; [lia|]; split; [exact Hs4 | discriminate]].
    cbv beta iota. rewrite bind_run.
    destruct (show_response_run response w5) as (w6 & -> & Hs5).
    rewrite Hs4 in Hs5.
    cbv beta iota. rewrite !bind_print, bind_run.
    match goal with
    | |- context [Cli.completion env client ?p ?mt ?tp ?w0] =>
        pose proof (sent_cli_completion env client p mt tp w0) as Hs6
    end.
    cbn [sent log_output] in Hs6. rewrite Hs5, <- app_assoc in Hs6.
    destruct (Cli.completion env client _ _ _ _) as [[response'|e] w7];
      cbn [snd] in Hs6;
      [|exists 4%nat; cbn; split; [lia|]; split; [exact Hs6 | discriminate]].
    cbv beta iota.
    destruct (show_response_run response' w7) as (w8 & -> & Hs7).
    exists 4%nat. cbn. split; [lia|]. split; [|now right].
    now rewrite Hs7, Hs6.
  - (* not healthy *)
    exists 1%nat. cbn. split; [lia|]. split; [exact Hs1 | now left].
  - exists 1%nat. cbn. split; [lia|]. split; [exact Hs1 | discriminate].
Qed.

(** X17. When the service does not answer the health check with status 200
    (it answers with another status, or the request fails with a
    [RequestException]), the demonstration stops there: it returns normally
    and the health check is the only request it has sent. *)
Theorem demo_stops_when_unhealthy env w :
  let client := {| base_url := resolve_in_order None (env_source env)
                                 (discovery_source env);
                   model := model_name |} in
  match endpoint env (sent w) (health_request client 10) with
  | Returns r => status_code r <> 200
  | Raises e => is_RequestException (cls e) = true
  end ->
  exists w',
    demo_basic_usage format_value env w = (Returns tt, w') /\
    sent w' = sent w ++ [health_request client 10].
Proof.
  cbn zeta. intros Hdown. unfold demo_basic_usage.
  set (client := {| base_url := resolve_in_order None (env_source env)
                                  (discovery_source env);
                    model := model_name |}) in *.
  rewrite !bind_print, bind_run.
  match goal with
  | |- context [Cli.__init__ env None ?w0] =>
      pose proof (cli_init_resolves env None w0) as Hc;
      pose proof (cli_init_sent env None w0) as Hs0
  end.
  fold client in Hc.
  destruct (Cli.__init__ env None _) as [r w1]. cbn [fst snd] in Hc, Hs0.
  subst r. cbn [sent log_output] in Hs0.
  cbv beta iota. rewrite bind_print, bind_run, cli_health_check_run. cbn zeta.
  cbn [sent log_output]. rewrite Hs0. unfold guarded, mbind, outcome_bind.
  destruct (endpoint env (sent w) (health_request client 10)) as [r|e].
  - apply Z.eqb_neq in Hdown. cbn. rewrite Hdown.
    eexists. split; [reflexivity|]. cbn. now rewrite Hs0.
  - rewrite Hdown. eexists. split; [reflexivity|]. cbn. now rewrite Hs0.
Qed.

End DemoProperties.


Lemma demo_stops_when_unhealthy_witness :
  exists w',
    demo_basic_usage (fun _ => []) unreachable initial_world = (Returns tt, w') /\
    sent w' =
    sent initial_world
    ++ [health_request
          {| base_url := resolve_in_order None (env_source unreachable)
                           (discovery_source unreachable);
             model := model_name |} 10].
Proof.
  exact (demo_stops_when_unhealthy (fun _ => []) unreachable initial_world
           eq_refl).
Defined.

(** ** The two clients side by side *)

(** Once [result["choices"]] has succeeded, [result] is an object and
    [result.get] cannot fail. *)
Lemma web_chat_result_spec result :
  web_chat_result result =
  match chat_content result with
  | Returns content =>
      Returns (Web.Success content
                 match result with
                 | VDict d => default (VDict []) (assoc (py "usage") d)
                 | _ => VDict []
                 end)
  | Raises e => Raises e
  end.
Proof. unfold web_chat_result, chat_content. destruct result; reflexivity. Qed.

(** X18. Given the same answer of the service, the two chat clients agree:
    the web client reports success with a content exactly when the
    command-line client returns that content, it reports a failure when the
    command-line client returns [None] after printing the diagnostic, and
    an exception that leaves one leaves the other; both send the same
    request. The two model listings return the same value or raise the same
    exception, except that a failure is the empty list for the one and an
    error object for the other. *)
Theorem clients_agree env self messages mt temp w :
  match fst (Web.chat_completion env self messages mt temp w) with
  | Returns (Web.Success content _) =>
      Cli.chat_completion env self messages mt temp w =
      (Returns content, log_request w (chat_request self messages mt temp))
  | Returns (Web.Failure error) =>
      Cli.chat_completion env self messages mt temp w =
      (Returns VNone,
       log_output (log_request w (chat_request self messages mt temp))
         (OutLine (py "Error in chat completion: " ++ error)))
  | Raises e =>
      Cli.chat_completion env self messages mt temp w =
      (Raises e, log_request w (chat_request self messages mt temp))
  end /\
  snd (Web.chat_completion env self messages mt temp w) =
    log_request w (chat_request self messages mt temp) /\
  (fst (Web.get_models env self w) = fst (Cli.get_models env self w) \/
   exists error,
     fst (Web.get_models env self w) = Returns (VDict [(py "error", VStr error)]) /\
     Cli.get_models env self w =
       (Returns (VList []),
        log_output (log_request w (models_request self 10))
          (OutLine (py "Error getting models: " ++ error)))).
Proof.
  rewrite cli_chat_completion_run, web_chat_completion_run,
    cli_get_models_run, web_get_models_run. cbn zeta.
  split; [|split].
  - unfold mbind, outcome_bind.
    destruct (endpoint env (sent w) (chat_request self messages mt temp))
      as [r|e]; [destruct (decoded r) as [result|e]|].
    + rewrite web_chat_result_spec.
      destruct (chat_content result) as [content|e] eqn:Hc; [reflexivity|].
      cbn. rewrite (lookup_not_RequestException _ (chat_content_raises _ _ Hc)).
      reflexivity.
    + cbn. destruct (is_RequestException (cls e)); reflexivity.
    + cbn. destruct (is_RequestException (cls e)); reflexivity.
  - unfold guarded.
    destruct (mbind _ _) as [v|e]; [reflexivity|].
    destruct (is_RequestException (cls e)); reflexivity.
  - unfold guarded.
    destruct (mbind _ _) as [v|e]; [now left|].
    destruct (is_RequestException (cls e)); [right | now left].
    exists (msg e). split; reflexivity.
Qed.

(** ** How the loop ends *)

(** Without interrupts one turn of the loop does not raise. *)
Lemma loop_body_returns env client i f :
  no_interrupts env ->
  exists c f', Cli.loop_body env client i f = (Returns c, f') /\
    (c = Cli.Break <-> leaving env i = true).
Proof.
  intros Hni. destruct (message_input env i) eqn:Hm.
  - destruct i as [line|]; [|discriminate]. cbn in Hm.
    rewrite (loop_body_turn _ _ _ _ Hm). cbn zeta.
    apply is_message_true in Hm as Hparts. destruct Hparts as (Hq & _ & _).
    match goal with
    | |- context [Cli.chat_completion env client ?t ?mt ?tp ?w0] =>
        pose proof (cli_chat_completion_raises env client t mt tp w0) as Hraise
    end.
    destruct (Cli.chat_completion _ _ _ _ _ _) as [[v|e] w']; cbn in Hraise.
    + destruct (truthy v); eexists _, _; (split; [reflexivity|]);
        cbn [leaving]; rewrite Hq; split; discriminate.
    + specialize (Hraise e Hni eq_refl).
      rewrite (Exception_not_KeyboardInterrupt _ Hraise), Hraise.
      eexists _, _. split; [reflexivity|]. cbn [leaving]. rewrite Hq. split; discriminate.
  - destruct i as [line|]; cbn [message_input] in Hm.
    + apply is_message_false in Hm as [Hq | [[Hq Hc] | (Hq & Hc & He)]].
      * rewrite (loop_body_quit _ _ _ _ Hq). eexists _, _.
        split; [reflexivity|]. cbn [leaving]. now rewrite Hq.
      * apply bool_decide_eq_true in Hc.
        rewrite (loop_body_clear _ _ _ _ Hc). eexists _, _.
        split; [reflexivity|]. cbn [leaving]. rewrite Hq. split; discriminate.
      * rewrite (loop_body_blank _ _ _ _ Hq Hc He). eexists _, _.
        split; [reflexivity|]. cbn [leaving]. rewrite Hq. split; discriminate.
    + rewrite loop_body_interrupt. eexists _, _. split; [reflexivity|]. now cbn.
Qed.

(** X19. Without interrupts during the requests, the loop never raises,
    whatever the service answers and whatever is typed: over a script it
    leaves exactly when the script has a line reading quit or exit, or
    Ctrl-C at the prompt; otherwise it is still waiting for input when the
    script runs out. *)
Theorem loop_leaves_iff_asked env client inputs f :
  no_interrupts env ->
  fst (Cli.chat_loop env client inputs f) =
  Returns (if existsb (leaving env) inputs then Cli.Left else Cli.SpinsOnEOF).
Proof.
  intros Hni. revert f. induction inputs as [|i inputs IH]; intros f;
    [reflexivity|].
  cbn [Cli.chat_loop existsb]. unfold mbind, M_bind.
  destruct (loop_body_returns env client i f Hni) as (c & f' & -> & Hc).
  destruct c.
  - rewrite (proj1 Hc eq_refl). reflexivity.
  - destruct (leaving env i);
      [pose proof (proj2 Hc eq_refl) as Hbreak; discriminate Hbreak|].
    cbn. apply IH.
Qed.

Lemma loop_leaves_iff_asked_witness :
  fst (Cli.chat_loop empty_object stub_client
         [Cli.Typed (py "hello"); Cli.Typed (py "Exit"); Cli.Typed (py "more")]
         {| Cli.world := initial_world; Cli.messages := [] |}) =
  Returns Cli.Left.
Proof.
  apply (loop_leaves_iff_asked empty_object stub_client
           [Cli.Typed (py "hello"); Cli.Typed (py "Exit"); Cli.Typed (py "more")]
           {| Cli.world := initial_world; Cli.messages := [] |}).
  intros history r. exact I.
Defined.
